(** * Discovery and TDMA scheduling over wsnsimpy: a1.py, lab06.py, lab03.py
      and lab01.py

    Shallow embedding of the protocol code of the simulation scripts.

    - Simulated time and durations are Python floats, IEEE 754 binary64
      numbers; they are modelled by the primitive floats of [PrimFloat],
      which are binary64 too: [+], [-], [*] round as Python's do, and
      [PrimFloat.ltb] and [PrimFloat.leb] are Python's [<] and [<=].
    - A PDU is the keyword record built by [wsp.PDU(phy, nbits, **kw)].
    - The simulator calls used by the nodes ([log], [phy.send_pdu],
      [sim.delayed_exec], [yield self.timeout]) are recorded as a list of
      actions returned by each handler, in program order.
    - A Python exception is the result [None]: it leaves the simulator's
      [run], and nothing of the script's simulation runs after it. *)

From stdpp Require Import base option list sets gmap strings pretty.
From Stdlib Require Import QArith Lqa Lia Floats.

Local Close Scope Q_scope.
Local Open Scope string_scope.
Local Open Scope list_scope.

(* The decimal constants of the scripts (0.1, 0.01) denote the nearest
   binary64 number, in Python as here. *)
#[local] Set Warnings "-inexact-float".

(** ** What the scripts share *)

Module Wsn.

(** [dest] is the string 'broadcast' or an integer node id. *)
Inductive Dest : Type :=
| Broadcast
| NodeId (n : nat).

Definition dest_is_broadcast (d : Dest) : bool :=
  match d with Broadcast => true | NodeId _ => false end.

(** [pdu.dest == n] for an integer [n]. *)
Definition dest_is_id (d : Dest) (n : nat) : bool :=
  match d with Broadcast => false | NodeId m => Nat.eqb m n end.

(** The [data=] keyword of the PDUs the scripts build. *)
Inductive Payload : Type :=
| NoData
| SchedData (num_devices : nat) (dev_slots : list (nat * nat)) (start_delay : float)
| IdData (i : nat)
| StrData (s : string)
| IdsData (ids : list nat).

Record PDU (D : Type) : Type := mkPDU {
  nbits : nat;
  src : nat;
  dest : Dest;
  pdu_type : string;
  data : D
}.
Arguments mkPDU {D}.
Arguments nbits {D}.
Arguments src {D}.
Arguments dest {D}.
Arguments pdu_type {D}.
Arguments data {D}.

(** What a MAC layer does with a received PDU: hand it to the node's
    [on_receive_pdu], hand it to [DefaultMacLayer.on_receive_pdu], or
    fall out of the conditional without a call. *)
Inductive Routing (D : Type) : Type :=
| ToNode (p : PDU D)
| ToDefaultMac (p : PDU D)
| Dropped.
Arguments ToNode {D}.
Arguments ToDefaultMac {D}.
Arguments Dropped {D}.

(** The routing decision alone, without the PDU handed on. *)
Inductive Decision : Type :=
| DeliverToProtocol
| ForwardDefault
| Drop.

Definition decision {D : Type} (r : Routing D) : Decision :=
  match r with
  | ToNode _ => DeliverToProtocol
  | ToDefaultMac _ => ForwardDefault
  | Dropped => Drop
  end.

(** The PDU a routing hands on, if any. *)
Definition handed_on {D : Type} (r : Routing D) : option (PDU D) :=
  match r with
  | ToNode p | ToDefaultMac p => Some p
  | Dropped => None
  end.

(** Calls into the simulator, with log lines of type [L] and timer
    callbacks of type [C]. *)
Inductive Action (L C : Type) : Type :=
| Log (l : L)
| SendPdu (p : PDU Payload)
| DelayedExec (delay : float) (cb : C)
| Timeout (d : float).
Arguments Log {L C}.
Arguments SendPdu {L C}.
Arguments DelayedExec {L C}.
Arguments Timeout {L C}.

(** [sim.delayed_exec(delay, f)]. It goes through simpy's [start_delayed],
    which starts with [if delay <= 0: raise ValueError]; otherwise [f] is
    called at [now + delay]. *)
Definition delayed_exec {L C : Type} (delay : float) (cb : C)
  : option (list (Action L C)) :=
  if PrimFloat.leb delay 0 then None else Some [DelayedExec delay cb].

(** An int in float arithmetic ([slot_number * SLOT_DURATION]): the nearest
    binary64 number, ties to even. The ints converted are list lengths and
    list indices, far below 2^1024, from where Python raises OverflowError
    instead. *)
Definition float_of_nat (n : nat) : float :=
  SF2Prim (binary_normalize prec emax (Z.of_nat n) 0 false).
Arguments float_of_nat : simpl never.

(** [random.uniform(a, b)] is [a + (b - a) * random()]; the draw
    [u = random()] is supplied by the caller. *)
Definition uniform (a b u : float) : float := (a + (b - a) * u)%float.
Arguments uniform : simpl never.

(** The timers armed and the PDUs sent by a list of actions. *)
Definition timers {L C} (acts : list (Action L C)) : list (float * C) :=
  omap (fun a => match a with DelayedExec d cb => Some (d, cb) | _ => None end) acts.

Definition pdus_sent {L C} (acts : list (Action L C)) : list (PDU Payload) :=
  omap (fun a => match a with SendPdu p => Some p | _ => None end) acts.

(** [enumerate(l)] *)
Fixpoint enumerate_from {A : Type} (i : nat) (l : list A) : list (nat * A) :=
  match l with
  | [] => []
  | x :: l' => (i, x) :: enumerate_from (S i) l'
  end.

Definition enumerate {A : Type} (l : list A) : list (nat * A) :=
  enumerate_from 0 l.

End Wsn.

Import Wsn.

(** ** a1.py *)

Module A1.

Definition TX_RANGE : nat := 150.
Definition NUM_DEVICES : nat := 10.
Definition DISCOVERY_DURATION : float := 5.
Definition HELLO_TIMEOUT : float := 0.01.
Definition SLOT_DURATION : float := 0.1.
Definition SCHED_START_DELAY : float := 0.5.
Definition SIM_DURATION : float := 50.

(** The lines passed to [log], by the f-string they come from. *)
Inductive LogLine : Type :=
| MacReceived (from : nat) (ty : string)
| DiscoveryStarts
| BroadcastedHello (bs : nat)
| DiscoveryEnded (bs : nat) (discovered : list nat)
| SentSchedule (bs : nat) (sched : list (nat * nat))
| BsReceivedHello (bs dev : nat)
| BsReceivedData (bs dev : nat)
| DevReceived (from : nat) (ty : string)
| SentDevHello (dev : nat)
| ReceivedSchedule (dev slot : nat)
| DidntGetSlot (dev : nat)
| SentData (dev : nat).

(** The bound methods given to [sim.delayed_exec]. *)
Inductive Callback : Type :=
| send_hello_cb
| send_data_cb.

Abbreviation Act := (Action LogLine Callback).

Module CustomMacLayer.

Definition on_receive_pdu {D : Type} (node_id : nat) (pdu : PDU D)
  : list LogLine * Routing D :=
  ([MacReceived (src pdu) (pdu_type pdu)],
   if String.eqb (pdu_type pdu) "BS-HELLO" && dest_is_broadcast (dest pdu) then
     ToNode pdu
   else if String.eqb (pdu_type pdu) "DEV-HELLO" && Nat.eqb node_id 0 then
     ToNode pdu
   else if String.eqb (pdu_type pdu) "SCHED" && dest_is_broadcast (dest pdu) then
     ToNode pdu
   else if String.eqb (pdu_type pdu) "DATA" then
     if Nat.eqb node_id 0 && dest_is_id (dest pdu) 0 then ToNode pdu
     else ToDefaultMac pdu
   else Dropped).

End CustomMacLayer.

Module BaseStation.

Record t : Type := mk {
  id : nat;
  discovered_devices : list nat;
  schedule : list (nat * nat)
}.

(** [__init__] *)
Definition init (i : nat) : t := mk i [] [].

(** [self.schedule.append(e)] *)
Definition schedule_append (self : t) (e : nat * nat) : t :=
  mk (id self) (discovered_devices self) (schedule self ++ [e]).

Definition create_schedule (self : t) : t :=
  foldl (fun s '(idx, device_id) => schedule_append s (device_id, idx))
        self (enumerate (discovered_devices self)).

Definition on_receive_pdu (self : t) (pdu : PDU Payload) : t * list Act :=
  if String.eqb (pdu_type pdu) "DEV-HELLO"
     && negb (bool_decide (src pdu ∈ discovered_devices self)) then
    (mk (id self) (discovered_devices self ++ [src pdu]) (schedule self),
     [Log (BsReceivedHello (id self) (src pdu))])
  else if String.eqb (pdu_type pdu) "DATA" then
    (self, [Log (BsReceivedData (id self) (src pdu))])
  else (self, []).

(** A PDU that reaches the node while [run] is suspended in a
    [yield self.timeout(...)]: it goes through the MAC layer first. What
    wsnsimpy's default MAC handler does with a PDU is outside this model. *)
Definition receive (st : t * list Act) (pdu : PDU Payload) : t * list Act :=
  let '(self, acts) := st in
  let '(lg, r) := CustomMacLayer.on_receive_pdu (id self) pdu in
  match r with
  | ToNode p =>
      let '(self', acts') := on_receive_pdu self p in
      (self', acts ++ map Log lg ++ acts')
  | _ => (self, acts ++ map Log lg)
  end.

Definition hello_pdu (self : t) : PDU Payload :=
  mkPDU 20 (id self) Broadcast "BS-HELLO" NoData.

Definition sched_pdu (self : t) : PDU Payload :=
  mkPDU 20 (id self) Broadcast "SCHED"
        (SchedData (length (schedule self)) (schedule self) SCHED_START_DELAY).

(** [run], started at time 0; [arr1] and [arr2] are the PDUs the transport
    hands to this node during the first and the second wait. *)
Definition run (self : t) (arr1 arr2 : list (PDU Payload)) : t * list Act :=
  let '(s1, a1) := foldl receive (self, [Timeout 5]) arr1 in
  let a2 := a1 ++ [Log DiscoveryStarts; SendPdu (hello_pdu s1);
                   Log (BroadcastedHello (id s1));
                   Timeout DISCOVERY_DURATION] in
  let '(s2, a3) := foldl receive (s1, a2) arr2 in
  let a4 := a3 ++ [Log (DiscoveryEnded (id s2) (discovered_devices s2))] in
  let s3 := create_schedule s2 in
  (s3, a4 ++ [SendPdu (sched_pdu s3); Log (SentSchedule (id s3) (schedule s3));
              Timeout (SIM_DURATION - (5 + DISCOVERY_DURATION))]).

End BaseStation.

Module Device.

Record t : Type := mk {
  id : nat;
  slot_number : option nat;
  schedule_frame_length : option float;
  start_delay : option float
}.

(** [__init__] *)
Definition init (i : nat) : t := mk i None None None.

(** The [for dev_id, slot_num in pdu.data['dev_slots']] loop of
    [process_schedule] and the log line after it. *)
Fixpoint find_own_slot (self : t) (dev_slots : list (nat * nat))
  : option (t * list Act) :=
  match dev_slots with
  | [] => Some (self, [Log (DidntGetSlot (id self))])
  | (dev_id, slot_num) :: rest =>
      if Nat.eqb dev_id (id self) then
        let self' := mk (id self) (Some slot_num)
                        (schedule_frame_length self) (start_delay self) in
        sd ← start_delay self';
        timer ← delayed_exec (sd + float_of_nat slot_num * SLOT_DURATION) send_data_cb;
        Some (self', Log (ReceivedSchedule (id self') slot_num) :: timer)
      else find_own_slot self rest
  end.

Definition process_schedule (self : t) (pdu : PDU Payload) : option (t * list Act) :=
  match data pdu with
  | SchedData num_devices dev_slots sd =>
      let self1 := mk (id self) (slot_number self)
                      (schedule_frame_length self) (Some sd) in
      let self2 := mk (id self1) (slot_number self1)
                      (Some (float_of_nat num_devices * SLOT_DURATION)%float)
                      (start_delay self1) in
      find_own_slot self2 dev_slots
  | _ => None
  end.

(** [u] is the draw of [random()] inside [random.uniform]. *)
Definition on_receive_pdu (self : t) (pdu : PDU Payload) (u : float)
  : option (t * list Act) :=
  if String.eqb (pdu_type pdu) "BS-HELLO" then
    let delay := uniform 0 HELLO_TIMEOUT u in
    timer ← delayed_exec delay send_hello_cb;
    Some (self, Log (DevReceived (src pdu) (pdu_type pdu)) :: timer)
  else if String.eqb (pdu_type pdu) "SCHED" then
    process_schedule self pdu
  else Some (self, []).

Definition send_hello (self : t) : list Act :=
  [SendPdu (mkPDU 20 (id self) (NodeId 0) "DEV-HELLO" (IdData (id self)));
   Log (SentDevHello (id self))].

Definition data_pdu (self : t) : PDU Payload :=
  mkPDU 20 (id self) (NodeId 0) "DATA" (StrData ("Data from " +:+ pretty (id self))).

(** [now] is [self.now] when the timer fires. *)
Definition send_data (self : t) (now : float) : option (list Act) :=
  if PrimFloat.ltb now SIM_DURATION then
    fl ← schedule_frame_length self;
    timer ← (if PrimFloat.ltb (now + fl) SIM_DURATION
             then delayed_exec fl send_data_cb else Some []);
    Some ([SendPdu (data_pdu self); Log (SentData (id self))] ++ timer)
  else Some [].

End Device.

(** *** The timers of one device

    [sim.delayed_exec(delay, f)] runs [f] at [now + delay], one double
    addition; pending timers fire in time order, and equal times in the
    order armed. The simulator's own horizon ([until=SIM_DURATION]) is left
    out: a timer at or after it fires here too, into the horizon check of
    [send_data]. *)

Record Sim : Type := mkSim {
  dev : Device.t;
  queue : list (float * Callback);
  sent : list (float * PDU Payload)
}.

Fixpoint insert_event (t : float) (cb : Callback) (q : list (float * Callback))
  : list (float * Callback) :=
  match q with
  | [] => [(t, cb)]
  | (t', cb') :: q' =>
      if PrimFloat.ltb t t' then (t, cb) :: q
      else (t', cb') :: insert_event t cb q'
  end.

Definition arm (now : float) (q : list (float * Callback)) (acts : list Act)
  : list (float * Callback) :=
  foldl (fun q '(d, cb) => insert_event (now + d)%float cb q) q (timers acts).

Definition run_callback (cb : Callback) (self : Device.t) (now : float)
  : option (list Act) :=
  match cb with
  | send_hello_cb => Some (Device.send_hello self)
  | send_data_cb => Device.send_data self now
  end.

(** Fire the pending timers, earliest first, at most [fuel] of them. *)
Fixpoint run_events (fuel : nat) (s : Sim) : option Sim :=
  match fuel with
  | O => Some s
  | S fuel' =>
      match queue s with
      | [] => Some s
      | (t, cb) :: q =>
          acts ← run_callback cb (dev s) t;
          run_events fuel' (mkSim (dev s) (arm t q acts)
                                  (sent s ++ map (fun p => (t, p)) (pdus_sent acts)))
      end
  end.

(** The device after [process_schedule] at time [t0], with the timers
    that call armed. *)
Definition on_schedule (self : Device.t) (pdu : PDU Payload) (t0 : float) : option Sim :=
  '(self', acts) ← Device.process_schedule self pdu;
  Some (mkSim self' (arm t0 [] acts) []).

(** The times [t], [t + F], [(t + F) + F], ... of [n] firings spaced
    [F] apart, added up the way the re-armed timers add them: one double
    addition for each firing. *)
Fixpoint chain_times (t F : float) (n : nat) : list float :=
  match n with
  | O => []
  | S n' => t :: chain_times (t + F)%float F n'
  end.

(** The instant that follows them: [t] with [F] added [k] times. *)
Fixpoint chain_instant (t F : float) (k : nat) : float :=
  match k with
  | O => t
  | S k' => chain_instant (t + F)%float F k'
  end.

(** When the DATA PDUs of a run were sent. *)
Definition data_times (s : Sim) : list float :=
  map fst (filter (fun e => String.eqb (pdu_type (snd e)) "DATA" = true) (sent s)).

End A1.

(** ** lab06.py *)

Module Lab06.

Definition TX_RANGE : nat := 500.
Definition NUM_DEVICES : nat := 50.
Definition DISCOVERY_DURATION : float := 5.
Definition HELLO_TIMEOUT : float := 0.1.
Definition RETRY_DISCOVERY_INTERVAL : float := 5.

(** The lines passed to [log], by the f-string they come from. *)
Inductive LogLine : Type :=
| MacReceived (ty : string) (at_node : nat)
| StartsDiscovery (cn : nat) (missing : list nat)
| SentDiscovery (cn : nat) (missing : list nat)
| StillMissing (cn : nat) (missing : list nat)
| DiscoveredAll (cn : nat) (discovered : list nat)
| CnReceivedHello (cn from : nat)
| RnReceivedDiscovery (rn from : nat)
| SchedulingHello (rn : nat) (random_delay : float)
| SentHello (rn : nat).

Inductive Callback : Type :=
| send_hello_cb.

Abbreviation Act := (Action LogLine Callback).

(** [list(range(1, NUM_DEVICES + 1))] *)
Definition all_ids : list nat := seq 1 NUM_DEVICES.

Module CustomMacLayer.

Definition on_receive_pdu {D : Type} (node_id : nat) (pdu : PDU D)
  : list LogLine * Routing D :=
  ([MacReceived (pdu_type pdu) node_id],
   if bool_decide (pdu_type pdu ∈ ["DISCOVERY"; "HELLO"]) then ToNode pdu
   else ToDefaultMac pdu).

End CustomMacLayer.

Module CentralNode.

Record t : Type := mk {
  id : nat;
  discovered_ids : list nat;
  missing_ids : list nat
}.

(** [__init__] *)
Definition init (i : nat) : t := mk i [] all_ids.

Definition on_receive_pdu (self : t) (pdu : PDU Payload) : t * list Act :=
  if String.eqb (pdu_type pdu) "HELLO"
     && negb (bool_decide (src pdu ∈ discovered_ids self)) then
    (mk (id self) (discovered_ids self ++ [src pdu]) (missing_ids self),
     [Log (CnReceivedHello (id self) (src pdu))])
  else (self, []).

(** A PDU handed to this node by the transport while [run] is suspended:
    it goes through the MAC layer first. *)
Definition receive (st : t * list Act) (pdu : PDU Payload) : t * list Act :=
  let '(self, acts) := st in
  let '(lg, r) := CustomMacLayer.on_receive_pdu (id self) pdu in
  match r with
  | ToNode p =>
      let '(self', acts') := on_receive_pdu self p in
      (self', acts ++ map Log lg ++ acts')
  | _ => (self, acts ++ map Log lg)
  end.

Definition discovery_pdu (self : t) : PDU Payload :=
  mkPDU 20 (id self) Broadcast "DISCOVERY" (IdsData (missing_ids self)).

(** [self.missing_ids =
     [i for i in range(1, NUM_DEVICES + 1) if i not in self.discovered_ids]] *)
Definition update_missing (self : t) : t :=
  mk (id self) (discovered_ids self)
     (filter (fun i => i ∉ discovered_ids self) all_ids).

(** One pass through the body of [while self.missing_ids]; [arr1] arrives
    during [timeout(DISCOVERY_DURATION)] and [arr2] during
    [timeout(RETRY_DISCOVERY_INTERVAL)]. *)
Definition discovery_round (self : t) (arr1 arr2 : list (PDU Payload))
  : t * list Act :=
  let '(s1, a1) := foldl receive (self, [Timeout DISCOVERY_DURATION]) arr1 in
  let a2 := a1 ++ [Log (StartsDiscovery (id s1) (missing_ids s1));
                   SendPdu (discovery_pdu s1);
                   Log (SentDiscovery (id s1) (missing_ids s1));
                   Timeout RETRY_DISCOVERY_INTERVAL] in
  let '(s2, a3) := foldl receive (s1, a2) arr2 in
  let s3 := update_missing s2 in
  (s3, a3 ++ [Log (match missing_ids s3 with
                   | [] => DiscoveredAll (id s3) (discovered_ids s3)
                   | _ => StillMissing (id s3) (missing_ids s3)
                   end)]).

(** How [run] ends: the loop condition became false, or the simulator
    stopped the process at its [until] horizon. *)
Inductive Stop : Type :=
| Converged
| BudgetExhausted.

Record RunResult : Type := mkRunResult {
  final : t;
  rounds : nat;
  broadcasts : list (PDU Payload);
  stop : Stop
}.

(** [run]. [env] lists, for each pass through the loop body that the
    simulator's horizon leaves time for, the PDUs delivered during its two
    waits; the code itself counts nothing. *)
Fixpoint run (env : list (list (PDU Payload) * list (PDU Payload)))
         (self : t) : RunResult :=
  match missing_ids self with
  | [] => mkRunResult self 0 [] Converged
  | _ :: _ =>
      match env with
      | [] => mkRunResult self 0 [] BudgetExhausted
      | (arr1, arr2) :: env' =>
          let '(self', acts) := discovery_round self arr1 arr2 in
          let r := run env' self' in
          mkRunResult (final r) (S (rounds r)) (pdus_sent acts ++ broadcasts r) (stop r)
      end
  end.

(** The coordinator after the passes of [env], whatever the loop
    condition says. *)
Definition node_after (env : list (list (PDU Payload) * list (PDU Payload)))
           (self : t) : t :=
  foldl (fun s '(arr1, arr2) => (discovery_round s arr1 arr2).1) self env.

End CentralNode.

Module RegularNode.

Record t : Type := mk {
  id : nat;
  received_discovery : bool;
  responded : bool
}.

(** [__init__] *)
Definition init (i : nat) : t := mk i false false.

(** [self.id in pdu.data]: a list is searched, a dict is searched by key
    (the keys are strings), and the other payloads raise. *)
Definition id_in_data (i : nat) (d : Payload) : option bool :=
  match d with
  | IdsData ids => Some (bool_decide (i ∈ ids))
  | SchedData _ _ _ => Some false
  | NoData | IdData _ | StrData _ => None
  end.

(** [u] is the draw of [random()] inside [random.uniform]. An exception
    of [sim.delayed_exec] comes after [self.responded = True] and the log
    line, which are lost with the simulation. *)
Definition on_receive_pdu (self : t) (pdu : PDU Payload) (u : float)
  : option (t * list Act) :=
  if String.eqb (pdu_type pdu) "DISCOVERY" then
    cond ← (if negb (responded self) then Some true
            else id_in_data (id self) (data pdu));
    let a := [Log (RnReceivedDiscovery (id self) (src pdu))] in
    if cond : bool then
      let random_delay := uniform 0 HELLO_TIMEOUT u in
      timer ← delayed_exec random_delay send_hello_cb;
      Some (mk (id self) (received_discovery self) true,
            a ++ Log (SchedulingHello (id self) random_delay) :: timer)
    else Some (self, a)
  else Some (self, []).

Definition send_hello (self : t) : list Act :=
  [SendPdu (mkPDU 20 (id self) (NodeId 0) "HELLO" (StrData "HELLO"));
   Log (SentHello (id self))].

(** The node after a history of received PDUs, each with the draw its
    handler makes. *)
Fixpoint handle_all (self : t) (h : list (PDU Payload * float)) : option t :=
  match h with
  | [] => Some self
  | (pdu, u) :: h' =>
      '(self', _) ← on_receive_pdu self pdu u;
      handle_all self' h'
  end.

End RegularNode.

End Lab06.

(** ** lab03.py *)

Module Lab03.

(** [wsp.Simulator(until=10, timescale=1)] *)
Definition UNTIL : float := 10.

(** [wsp.PDU(None, 20, data=..., nodeid=...)] *)
Record PDU : Type := mkPDU {
  nbits : nat;
  data : string;
  nodeid : nat
}.

(** What a node does at an instant: a line for [log] or [print], or a PDU
    for [phy.send_pdu]. *)
Inductive Event : Type :=
| LogPosition (node : nat) (pos : float * float)
| LogSent (node : nat) (data : string)
| PrintReceived (node from : nat) (data : string)
| SendPdu (p : PDU).

(** The PDUs of a trace, with their instants. *)
Definition sends (trace : list (float * Event)) : list (float * PDU) :=
  omap (fun e => match e.2 with SendPdu p => Some (e.1, p) | _ => None end) trace.

Module MyNode.

Record t : Type := mk {
  id : nat;
  pos : float * float;
  tx_range : nat;
  seq_num : nat
}.

(** [__init__] *)
Definition init (i : nat) (p : float * float) : t := mk i p 100 0.

(** The body of [while True] after its [yield]: build the PDU, send it,
    log it, count it. *)
Definition transmit (self : t) : t * list Event :=
  let pdu := mkPDU 20 ("MyData_from_Node_" +:+ pretty (id self)) (id self) in
  (mk (id self) (pos self) (tx_range self) (seq_num self + 1),
   [SendPdu pdu; LogSent (id self) (data pdu)]).

(** The loop of [run] from time [now] on, with [draws k] the value of
    [random.random()] behind the k-th [random.uniform(0, 1)]. simpy's
    [timeout] raises ValueError for a negative delay. The process is
    resumed from [yield self.timeout(1 + backoff_time)], at
    [now + (1 + backoff_time)], only if that instant lies before the
    simulator's [until]. The result is what the node did and when, and
    whether the horizon ended the loop (rather than [fuel]). *)
Fixpoint run_loop (fuel : nat) (now : float) (draws : nat -> float) (k : nat) (self : t)
  : option (t * list (float * Event) * bool) :=
  match fuel with
  | O => Some (self, [], false)
  | S fuel' =>
      let backoff_time := uniform 0 1 (draws k) in
      let delay := (1 + backoff_time)%float in
      if PrimFloat.ltb delay 0 then None
      else
        let wake := (now + delay)%float in
        if PrimFloat.ltb wake UNTIL then
          let '(self1, evs) := transmit self in
          '(self2, trace, done) ← run_loop fuel' wake draws (S k) self1;
          Some (self2, map (fun e => (wake, e)) evs ++ trace, done)
        else Some (self, [], true)
  end.

(** [run], started at time 0. *)
Definition run (fuel : nat) (draws : nat -> float) (self : t)
  : option (t * list (float * Event) * bool) :=
  if Nat.eqb (id self) 0 then Some (self, [], true)
  else
    '(self', trace, done) ← run_loop fuel 0 draws 0 self;
    Some (self', (0%float, LogPosition (id self) (pos self)) :: trace, done).

Definition on_receive_pdu (self : t) (pdu : PDU) : list Event :=
  if Nat.eqb (id self) 0 then [PrintReceived (id self) (nodeid pdu) (data pdu)] else [].

(** The instants at which the loop is resumed if nothing stops it: from
    [now], one double addition of [1 + backoff_time] for each pass. *)
Fixpoint wake_times (now : float) (draws : nat -> float) (k n : nat) : list float :=
  match n with
  | O => []
  | S n' =>
      let wake := (now + (1 + uniform 0 1 (draws k)))%float in
      wake :: wake_times wake draws (S k) n'
  end.

End MyNode.

End Lab03.

(** ** lab01.py *)

Module Lab01.

(** [wsp.Simulator(until=20, timescale=1)] *)
Definition UNTIL : float := 20.

(** [wsp.PDU(None, 20, data=..., source=...)] *)
Record PDU : Type := mkPDU {
  nbits : nat;
  data : string;
  source : nat
}.

Inductive Event : Type :=
| LogReceived (data : string) (from : nat)
| LogSent (node : nat)
| SendPdu (p : PDU).

(** The PDUs of a trace, with their instants. *)
Definition sends (trace : list (float * Event)) : list (float * PDU) :=
  omap (fun e => match e.2 with SendPdu p => Some (e.1, p) | _ => None end) trace.

Module MyNode.

Record t : Type := mk {
  id : nat;
  tx_range : nat
}.

(** [__init__] *)
Definition init (i : nat) : t := mk i 100.

Definition on_receive_pdu (self : t) (pdu : PDU) : list Event :=
  [LogReceived (data pdu) (source pdu)].

(** The [while True] loop of node 1 from time [now] on: wait 2 seconds,
    send, log, again, for as long as the simulator's [until] lets the
    process resume. *)
Fixpoint run_loop (fuel : nat) (now : float) (self : t) : list (float * Event) * bool :=
  match fuel with
  | O => ([], false)
  | S fuel' =>
      let wake := (now + 2)%float in
      if PrimFloat.ltb wake UNTIL then
        let '(trace, done) := run_loop fuel' wake self in
        ((wake, SendPdu (mkPDU 20 "Hello from node 1" (id self)))
           :: (wake, LogSent (id self)) :: trace, done)
      else ([], true)
  end.

(** [run], started at time 0; [r] is the value of [random.random()], and
    simpy's [timeout] raises ValueError for a negative delay. Only node 1
    transmits. The other nodes evaluate [self.sim.passivate()], and
    wsnsimpy's [Simulator] has no attribute of that name: AttributeError. *)
Definition run (fuel : nat) (r : float) (self : t) : option (list (float * Event) * bool) :=
  if Nat.eqb (id self) 1 then
    if PrimFloat.ltb r 0 then None
    else if PrimFloat.ltb (0 + r) UNTIL then Some (run_loop fuel (0 + r)%float self)
    else Some ([], true)
  else None.

End MyNode.

(** The script: nodes 0 to 10, whose [run]s the simulator starts in this
    order at time 0, before any time passes. An exception in one of them
    ends the simulation. *)
Definition script (fuel : nat) (r : float) : option (list (list (float * Event) * bool)) :=
  mapM (fun i => MyNode.run fuel r (MyNode.init i)) (seq 0 11).

End Lab01.

(** ** Vocabulary of the statements *)

(** The node classes have distinct names across the two scripts. *)
Module BaseStation := A1.BaseStation.
Module Device := A1.Device.
Module CentralNode := Lab06.CentralNode.
Module RegularNode := Lab06.RegularNode.

(** The HELLO PDU a regular node with id [i] sends. *)
Definition hello_from (i : nat) : PDU Payload :=
  mkPDU 20 i (NodeId 0) "HELLO" (StrData "HELLO").

(** [pdu.type == 'DISCOVERY'] *)
Definition is_discovery (q : PDU Payload) : bool :=
  String.eqb (pdu_type q) "DISCOVERY".

(** What holds of the two lists whenever [missing_ids] is up to date. *)
Definition bookkeeping_ok (c : CentralNode.t) : Prop :=
  (forall i, i ∈ CentralNode.discovered_ids c -> i ∈ Lab06.all_ids)
  /\ (forall i, i ∈ CentralNode.missing_ids c <->
                i ∈ Lab06.all_ids /\ i ∉ CentralNode.discovered_ids c).

(** [t < SIM_DURATION], the horizon check of [send_data]. *)
Definition below_horizon (t : float) : bool := PrimFloat.ltb t A1.SIM_DURATION.

(** The instant [start_delay + slot * slot_duration + k * frame_length]
    after the receipt time [t0] that the closed form names for the k-th
    transmission, with [frame_length = n * slot_duration]: in exact
    arithmetic, with the slot duration one tenth of a second, *)
Definition closed_form_exact (t0 sd : Q) (slot n k : nat) : Q :=
  (t0 + (sd + inject_Z (Z.of_nat slot) * (1 # 10)
         + inject_Z (Z.of_nat k) * (inject_Z (Z.of_nat n) * (1 # 10))))%Q.

(** and evaluated in the doubles of the program. *)
Definition closed_form_float (t0 sd : float) (slot n k : nat) : float :=
  (t0 + (sd + float_of_nat slot * A1.SLOT_DURATION
         + float_of_nat k * (float_of_nat n * A1.SLOT_DURATION)))%float.

(** ** Vocabulary of the further properties *)

(** The distinct elements of [l], each at the place of its first
    occurrence. *)
Definition first_arrivals (l : list nat) : list nat :=
  reverse (remove_dups (reverse l)).

(** The sources of the PDUs of type [ty] among [arr], in order of arrival. *)
Definition sources_of (ty : string) (arr : list (PDU Payload)) : list nat :=
  src <$> filter (fun p => pdu_type p = ty) arr.

(** Everything delivered during the passes of [env], in order. *)
Definition all_arrivals (env : list (list (PDU Payload) * list (PDU Payload)))
  : list (PDU Payload) :=
  concat ((fun arr => arr.1 ++ arr.2) <$> env).


(** The same for a regular node of lab06.py. *)
Definition RegularNode_receive (self : RegularNode.t) (pdu : PDU Payload) (u : float)
  : option (RegularNode.t * list Lab06.Act) :=
  let '(lg, r) := Lab06.CustomMacLayer.on_receive_pdu (RegularNode.id self) pdu in
  match r with
  | ToNode p =>
      '(self', acts) ← RegularNode.on_receive_pdu self p u;
      Some (self', map Log lg ++ acts)
  | _ => Some (self, map Log lg)
  end.

(** Every id of 1..NUM_DEVICES has had a HELLO delivered during the first
    [j] passes of [env]. *)
Definition all_answered (env : list (list (PDU Payload) * list (PDU Payload)))
           (j : nat) : Prop :=
  forall d, 1 <= d <= Lab06.NUM_DEVICES ->
            d ∈ sources_of "HELLO" (all_arrivals (take j env)).


(** * Properties *)

(** ** The schedule builder *)

Lemma foldl_schedule_append (l : list (nat * nat)) (self : BaseStation.t) :
  BaseStation.schedule (foldl (fun s '(idx, device_id) => BaseStation.schedule_append s (device_id, idx)) self l)
  = BaseStation.schedule self ++ map (fun e => (e.2, e.1)) l.
Proof.
  revert self. induction l as [|[i d] l IH]; intros self; simpl.
  - by rewrite app_nil_r.
  - rewrite IH. simpl. by rewrite <- app_assoc.
Qed.

Lemma enumerate_from_lookup {A : Type} (l : list A) (k i : nat) (x : A) :
  l !! i = Some x -> enumerate_from k l !! i = Some (k + i, x).
Proof.
  revert k i. induction l as [|y l IH]; intros k [|i] H; simplify_eq/=.
  - by rewrite Nat.add_0_r.
  - rewrite (IH (S k) i H). f_equal. f_equal. lia.
Qed.

Lemma enumerate_from_fst {A : Type} (l : list A) (k : nat) :
  (enumerate_from k l).*1 = seq k (length l).
Proof.
  revert k. induction l as [|y l IH]; intros k; simpl; [done|]. by rewrite IH.
Qed.

Lemma enumerate_from_snd {A : Type} (l : list A) (k : nat) :
  (enumerate_from k l).*2 = l.
Proof.
  revert k. induction l as [|y l IH]; intros k; simpl; [done|]. by rewrite IH.
Qed.

Lemma swapped_fst (l : list (nat * nat)) :
  (map (fun e : nat * nat => (e.2, e.1)) l).*1 = l.*2.
Proof. induction l as [|e l IH]; [done|]. cbn [map fmap list_fmap]. by f_equal. Qed.

Lemma swapped_snd (l : list (nat * nat)) :
  (map (fun e : nat * nat => (e.2, e.1)) l).*2 = l.*1.
Proof. induction l as [|e l IH]; [done|]. cbn [map fmap list_fmap]. by f_equal. Qed.

Lemma enumerate_from_length {A : Type} (l : list A) (k : nat) :
  length (enumerate_from k l) = length l.
Proof.
  revert k. induction l as [|y l IH]; intros k; simpl; [done|]. by rewrite IH.
Qed.

Lemma create_schedule_spec (self : BaseStation.t) :
  BaseStation.schedule (BaseStation.create_schedule self)
  = BaseStation.schedule self
    ++ map (fun e => (e.2, e.1)) (enumerate (BaseStation.discovered_devices self)).
Proof. unfold BaseStation.create_schedule. apply foldl_schedule_append. Qed.

(** C2. For a base station whose schedule is still the empty list of
    [__init__], [create_schedule] yields the list whose i-th entry is
    (discovered_devices[i], i): same length, entry by entry, and the slot
    indices are exactly 0, 1, ..., len - 1, hence pairwise distinct. *)
Theorem C2_create_schedule (id : nat) (ds : list nat) :
  let s := BaseStation.schedule (BaseStation.create_schedule (BaseStation.mk id ds [])) in
  length s = length ds
  /\ (forall i d, ds !! i = Some d -> s !! i = Some (d, i))
  /\ s.*1 = ds
  /\ s.*2 = seq 0 (length ds)
  /\ NoDup s.*2.
Proof.
  intros s. subst s. rewrite create_schedule_spec. simpl. unfold enumerate.
  split_and!.
  - by rewrite length_map, enumerate_from_length.
  - intros i d Hi. rewrite list_lookup_fmap.
    by rewrite (enumerate_from_lookup ds 0 i d Hi).
  - by rewrite swapped_fst, enumerate_from_snd.
  - by rewrite swapped_snd, enumerate_from_fst.
  - rewrite swapped_snd, enumerate_from_fst.
    apply NoDup_ListNoDup, List.seq_NoDup.
Qed.

(** ** MAC dispatch *)

Lemma a1_mac_decision {D : Type} (node_id : nat) (pdu : PDU D) :
  let r := (A1.CustomMacLayer.on_receive_pdu node_id pdu).2 in
  r = ToNode pdu \/ r = ToDefaultMac pdu \/ r = Dropped.
Proof.
  unfold A1.CustomMacLayer.on_receive_pdu; simpl.
  repeat match goal with |- context [if ?b then _ else _] => destruct b end; auto.
Qed.

Lemma lab06_mac_decision {D : Type} (node_id : nat) (pdu : PDU D) :
  let r := (Lab06.CustomMacLayer.on_receive_pdu node_id pdu).2 in
  r = ToNode pdu \/ r = ToDefaultMac pdu.
Proof.
  unfold Lab06.CustomMacLayer.on_receive_pdu; simpl. case_bool_decide; auto.
Qed.

(** C3. In a1.py's MAC layer: a BS-HELLO or SCHED PDU whose destination is
    'broadcast' is handed to the node on every node; a DEV-HELLO is handed
    to the node exactly when the node is the base station (id 0) and is
    dropped elsewhere; a DATA PDU is handed to the node exactly when the
    node is the base station and the destination is its id, and goes to the
    default MAC handler in every other case. *)
Theorem C3_mac_dispatch (D : Type) (node_id : nat) (pdu : PDU D) :
  let r := (A1.CustomMacLayer.on_receive_pdu node_id pdu).2 in
  ((pdu_type pdu = "BS-HELLO" \/ pdu_type pdu = "SCHED") ->
     dest pdu = Broadcast -> r = ToNode pdu)
  /\ (pdu_type pdu = "DEV-HELLO" ->
        (r = ToNode pdu <-> node_id = 0) /\ (node_id <> 0 -> r = Dropped))
  /\ (pdu_type pdu = "DATA" ->
        (r = ToNode pdu <-> node_id = 0 /\ dest pdu = NodeId node_id)
        /\ (~ (node_id = 0 /\ dest pdu = NodeId node_id) -> r = ToDefaultMac pdu)).
Proof.
  unfold A1.CustomMacLayer.on_receive_pdu; simpl. split_and!.
  - intros [-> | ->] ->; reflexivity.
  - intros ->. cbn. destruct node_id; cbn; intuition (try congruence; try lia).
  - intros ->. cbn. destruct node_id as [|n], (dest pdu) as [|[|m]]; cbn;
      intuition (try congruence; try lia).
Qed.

(** C9. Both MAC layers are total functions of the PDU and the node id whose
    routing decision depends only on the PDU's type, its destination and the
    node id: two PDUs that agree on type and destination (whatever their
    source, size and payload, even payloads of different types) get the same
    decision on the same node; every PDU, of a known type or not, gets one of
    the three outcomes; a PDU that is handed on is the received PDU itself,
    payload included. *)
Theorem C9_dispatch_total_deterministic :
  (forall (D1 D2 : Type) (node_id : nat) (p1 : PDU D1) (p2 : PDU D2),
     pdu_type p1 = pdu_type p2 -> dest p1 = dest p2 ->
     decision (A1.CustomMacLayer.on_receive_pdu node_id p1).2
     = decision (A1.CustomMacLayer.on_receive_pdu node_id p2).2
     /\ decision (Lab06.CustomMacLayer.on_receive_pdu node_id p1).2
        = decision (Lab06.CustomMacLayer.on_receive_pdu node_id p2).2)
  /\ (forall (D : Type) (node_id : nat) (p : PDU D),
        (exists l r, A1.CustomMacLayer.on_receive_pdu node_id p = (l, r)
                     /\ (r = ToNode p \/ r = ToDefaultMac p \/ r = Dropped))
        /\ (exists l r, Lab06.CustomMacLayer.on_receive_pdu node_id p = (l, r)
                        /\ (r = ToNode p \/ r = ToDefaultMac p)))
  /\ (forall (D : Type) (node_id : nat) (p q : PDU D),
        (handed_on (A1.CustomMacLayer.on_receive_pdu node_id p).2 = Some q -> q = p)
        /\ (handed_on (Lab06.CustomMacLayer.on_receive_pdu node_id p).2 = Some q -> q = p))
  /\ (forall (D : Type) (node_id : nat) (p : PDU D),
        pdu_type p ∉ ["BS-HELLO"; "DEV-HELLO"; "SCHED"; "DATA"] ->
        (A1.CustomMacLayer.on_receive_pdu node_id p).2 = Dropped)
  /\ (forall (D : Type) (node_id : nat) (p : PDU D),
        pdu_type p ∉ ["DISCOVERY"; "HELLO"] ->
        (Lab06.CustomMacLayer.on_receive_pdu node_id p).2 = ToDefaultMac p).
Proof.
  split_and!.
  - intros D1 D2 node_id p1 p2 Ht Hd.
    unfold A1.CustomMacLayer.on_receive_pdu, Lab06.CustomMacLayer.on_receive_pdu; simpl.
    rewrite Ht, Hd. split.
    + repeat match goal with |- context [if ?b then _ else _] => destruct b end;
        reflexivity.
    + case_bool_decide; reflexivity.
  - intros D node_id p. split.
    + eexists _, _. split; [reflexivity|]. apply (a1_mac_decision node_id p).
    + eexists _, _. split; [reflexivity|]. apply (lab06_mac_decision node_id p).
  - intros D node_id p q. split; intros H.
    + destruct (a1_mac_decision node_id p) as [E | [E | E]];
        cbv zeta in E; rewrite E in H; simpl in H; congruence.
    + destruct (lab06_mac_decision node_id p) as [E | E];
        cbv zeta in E; rewrite E in H; simpl in H; congruence.
  - intros D node_id p Hp. unfold A1.CustomMacLayer.on_receive_pdu; simpl.
    rewrite !not_elem_of_cons in Hp. destruct Hp as (H1 & H2 & H3 & H4 & _).
    apply String.eqb_neq in H1, H2, H3, H4. rewrite H1, H2, H3, H4. reflexivity.
  - intros D node_id p Hp. unfold Lab06.CustomMacLayer.on_receive_pdu; simpl.
    by rewrite bool_decide_eq_false_2.
Qed.

(** ** A schedule that does not list the device *)

Lemma find_own_slot_absent (self : Device.t) (slots : list (nat * nat)) :
  Device.id self ∉ slots.*1 ->
  Device.find_own_slot self slots = Some (self, [Log (A1.DidntGetSlot (Device.id self))]).
Proof.
  induction slots as [|[d k] slots IH]; intros Hnot; simpl; [done|].
  rewrite fmap_cons, not_elem_of_cons in Hnot. destruct Hnot as [Hd Hrest].
  destruct (Nat.eqb_spec d (Device.id self)) as [-> | _]; [done | auto].
Qed.

Lemma process_schedule_absent (self : Device.t) (pdu : PDU Payload)
      (n : nat) (slots : list (nat * nat)) (sd : float) :
  data pdu = SchedData n slots sd ->
  Device.id self ∉ slots.*1 ->
  Device.process_schedule self pdu
  = Some (Device.mk (Device.id self) (Device.slot_number self)
                      (Some (float_of_nat n * A1.SLOT_DURATION)%float) (Some sd),
          [Log (A1.DidntGetSlot (Device.id self))]).
Proof.
  intros Hd Hnot. unfold Device.process_schedule. rewrite Hd.
  by rewrite find_own_slot_absent.
Qed.

(** C4. A device handed a SCHED PDU whose slot list does not contain its id
    logs that it got no slot and does nothing else: the handler arms no
    timer and sends no PDU, so the timers of this schedule are none, and
    running them, for however long, transmits nothing. *)
Theorem C4_no_slot_no_timer (self : Device.t) (pdu : PDU Payload)
        (n : nat) (slots : list (nat * nat)) (sd t0 u : float) :
  pdu_type pdu = "SCHED" ->
  data pdu = SchedData n slots sd ->
  Device.id self ∉ slots.*1 ->
  exists self' acts,
    Device.on_receive_pdu self pdu u = Some (self', acts)
    /\ Device.process_schedule self pdu = Some (self', acts)
    /\ acts = [Log (A1.DidntGetSlot (Device.id self))]
    /\ timers acts = []
    /\ pdus_sent acts = []
    /\ A1.on_schedule self pdu t0 = Some (A1.mkSim self' [] [])
    /\ forall fuel,
         A1.run_events fuel (A1.mkSim self' [] []) = Some (A1.mkSim self' [] [])
         /\ A1.data_times (A1.mkSim self' [] []) = [].
Proof.
  intros Ht Hd Hnot.
  pose proof (process_schedule_absent self pdu n slots sd Hd Hnot) as Hps.
  eexists _, _. split_and!.
  - unfold Device.on_receive_pdu. rewrite Ht. cbn. exact Hps.
  - exact Hps.
  - reflexivity.
  - reflexivity.
  - reflexivity.
  - unfold A1.on_schedule. rewrite Hps. reflexivity.
  - intros [|fuel]; split; reflexivity.
Qed.

Lemma C4_no_slot_no_timer_witness :
  exists self' acts,
    Device.on_receive_pdu (Device.init 7)
      (BaseStation.sched_pdu (BaseStation.create_schedule (BaseStation.mk 0 [3; 1; 2] []))) 0.5
    = Some (self', acts)
    /\ timers acts = [] /\ pdus_sent acts = [].
Proof.
  destruct (C4_no_slot_no_timer (Device.init 7)
              (BaseStation.sched_pdu (BaseStation.create_schedule (BaseStation.mk 0 [3; 1; 2] [])))
              3 [(3, 0); (1, 1); (2, 2)] 0.5 10 0.5)
    as (self' & acts & H1 & _ & _ & H2 & H3 & _).
  - reflexivity.
  - reflexivity.
  - apply (bool_decide_unpack _). vm_compute. exact I.
  - exists self', acts. auto.
Defined.

(** C10. When the SCHED PDU does not list the device, [process_schedule]
    leaves [slot_number] (and the id) as they were, [None] for a device
    fresh from [__init__], and arms no timer, yet [start_delay] is the PDU's
    start_delay and [schedule_frame_length] is the PDU's num_devices times
    SLOT_DURATION, whatever they were before. *)
Theorem C10_absent_keeps_slot_overwrites_timing (self : Device.t) (pdu : PDU Payload)
        (n : nat) (slots : list (nat * nat)) (sd : float) :
  data pdu = SchedData n slots sd ->
  Device.id self ∉ slots.*1 ->
  exists self' acts,
    Device.process_schedule self pdu = Some (self', acts)
    /\ Device.id self' = Device.id self
    /\ Device.slot_number self' = Device.slot_number self
    /\ (self = Device.init (Device.id self) -> Device.slot_number self' = None)
    /\ Device.start_delay self' = Some sd
    /\ Device.schedule_frame_length self' = Some (float_of_nat n * A1.SLOT_DURATION)%float
    /\ timers acts = [].
Proof.
  intros Hd Hnot. eexists _, _. split_and!.
  - exact (process_schedule_absent self pdu n slots sd Hd Hnot).
  - reflexivity.
  - reflexivity.
  - intros ->. reflexivity.
  - reflexivity.
  - reflexivity.
  - reflexivity.
Qed.

Lemma C10_absent_keeps_slot_overwrites_timing_witness :
  exists self' acts,
    Device.process_schedule (Device.mk 7 (Some 4) (Some 9%float) (Some 8%float))
      (mkPDU 20 0 Broadcast "SCHED" (SchedData 3 [(3, 0); (1, 1); (2, 2)] 0.5))
    = Some (self', acts)
    /\ Device.slot_number self' = Some 4
    /\ Device.start_delay self' = Some 0.5%float
    /\ Device.schedule_frame_length self' = Some (float_of_nat 3 * A1.SLOT_DURATION)%float
    /\ timers acts = [].
Proof.
  destruct (C10_absent_keeps_slot_overwrites_timing
              (Device.mk 7 (Some 4) (Some 9%float) (Some 8%float))
              (mkPDU 20 0 Broadcast "SCHED" (SchedData 3 [(3, 0); (1, 1); (2, 2)] 0.5))
              3 [(3, 0); (1, 1); (2, 2)] 0.5)
    as (self' & acts & H1 & _ & H2 & _ & H3 & H4 & H5).
  - reflexivity.
  - apply (bool_decide_unpack _). vm_compute. exact I.
  - exists self', acts. auto.
Defined.

(** ** The coordinator of lab06.py *)

Lemma pdus_sent_app {L C : Type} (a b : list (Action L C)) :
  pdus_sent (a ++ b) = pdus_sent a ++ pdus_sent b.
Proof. apply omap_app. Qed.

Lemma timers_app {L C : Type} (a b : list (Action L C)) :
  timers (a ++ b) = timers a ++ timers b.
Proof. apply omap_app. Qed.

Lemma pdus_sent_cons_log {L C : Type} (l : L) (a : list (Action L C)) :
  pdus_sent (Log l :: a) = pdus_sent a.
Proof. reflexivity. Qed.

Lemma pdus_sent_logs {L C : Type} (lg : list L) :
  pdus_sent (map (@Log L C) lg) = [].
Proof. induction lg as [|l lg IH]; [done | exact IH]. Qed.

Lemma cn_on_receive_pdu_frame (self : CentralNode.t) (pdu : PDU Payload) :
  let self' := (CentralNode.on_receive_pdu self pdu).1 in
  CentralNode.id self' = CentralNode.id self
  /\ CentralNode.missing_ids self' = CentralNode.missing_ids self
  /\ pdus_sent (CentralNode.on_receive_pdu self pdu).2 = []
  /\ (forall i, i ∈ CentralNode.discovered_ids self' <->
                i ∈ CentralNode.discovered_ids self
                \/ (i = src pdu /\ pdu_type pdu = "HELLO")).
Proof.
  unfold CentralNode.on_receive_pdu.
  destruct (String.eqb_spec (pdu_type pdu) "HELLO") as [Ht | Ht]; simpl.
  - case_bool_decide as Hin; simpl; split_and!; try done; intros i.
    + split; [auto | intros [? | [-> _]]; done].
    + rewrite elem_of_app, list_elem_of_singleton. intuition.
  - split_and!; try done. intros i. intuition congruence.
Qed.

Lemma cn_receive_frame (st : CentralNode.t * list Lab06.Act) (pdu : PDU Payload) :
  let st' := CentralNode.receive st pdu in
  CentralNode.id st'.1 = CentralNode.id st.1
  /\ CentralNode.missing_ids st'.1 = CentralNode.missing_ids st.1
  /\ pdus_sent st'.2 = pdus_sent st.2
  /\ (forall i, i ∈ CentralNode.discovered_ids st'.1 <->
                i ∈ CentralNode.discovered_ids st.1
                \/ (i = src pdu /\ pdu_type pdu = "HELLO")).
Proof.
  destruct st as [self acts]. unfold CentralNode.receive, Lab06.CustomMacLayer.on_receive_pdu.
  case_bool_decide as Hty; simpl.
  - pose proof (cn_on_receive_pdu_frame self pdu) as (H1 & H2 & H3 & H4).
    destruct (CentralNode.on_receive_pdu self pdu) as [self' acts']; cbn [fst snd] in *.
    split_and!; try done.
    by rewrite pdus_sent_app, pdus_sent_cons_log, H3, app_nil_r.
  - split_and!; try done.
    + rewrite pdus_sent_app. cbn. by rewrite app_nil_r.
    + intros i. split; [auto | intros [? | [_ Ht]]; [done|]].
      exfalso. apply Hty. rewrite Ht. set_solver.
Qed.

Lemma cn_receive_all_frame (arr : list (PDU Payload))
      (st : CentralNode.t * list Lab06.Act) :
  let st' := foldl CentralNode.receive st arr in
  CentralNode.id st'.1 = CentralNode.id st.1
  /\ CentralNode.missing_ids st'.1 = CentralNode.missing_ids st.1
  /\ pdus_sent st'.2 = pdus_sent st.2
  /\ (forall i, i ∈ CentralNode.discovered_ids st'.1 <->
                i ∈ CentralNode.discovered_ids st.1
                \/ exists pdu, pdu ∈ arr /\ i = src pdu /\ pdu_type pdu = "HELLO").
Proof.
  revert st. induction arr as [|pdu arr IH]; intros st; simpl.
  - split_and!; try done. intros i. split; [auto | intros [? | (? & H & _)]; [done|]].
    by apply elem_of_nil in H.
  - destruct (IH (CentralNode.receive st pdu)) as (H1 & H2 & H3 & H4).
    destruct (cn_receive_frame st pdu) as (G1 & G2 & G3 & G4).
    split_and!; try congruence.
    intros i. rewrite H4, G4. setoid_rewrite elem_of_cons. split.
    + intros [[Hi | [-> Ht]] | (q & Hq & -> & Ht)]; eauto 6.
    + intros [Hi | (q & [-> | Hq] & -> & Ht)]; eauto 6.
Qed.

Lemma discovery_round_spec (self : CentralNode.t) (arr1 arr2 : list (PDU Payload)) :
  let r := CentralNode.discovery_round self arr1 arr2 in
  pdus_sent r.2 = [CentralNode.discovery_pdu self]
  /\ CentralNode.id r.1 = CentralNode.id self
  /\ CentralNode.missing_ids r.1
     = filter (fun i => i ∉ CentralNode.discovered_ids r.1) Lab06.all_ids
  /\ (forall i, i ∈ CentralNode.discovered_ids r.1 <->
                i ∈ CentralNode.discovered_ids self
                \/ exists pdu, pdu ∈ arr1 ++ arr2 /\ i = src pdu /\ pdu_type pdu = "HELLO").
Proof.
  unfold CentralNode.discovery_round.
  pose proof (cn_receive_all_frame arr1 (self, [Timeout Lab06.DISCOVERY_DURATION]))
    as (H1 & H2 & H3 & H4).
  destruct (foldl CentralNode.receive (self, [Timeout Lab06.DISCOVERY_DURATION]) arr1)
    as [s1 a1]; cbn [fst snd] in *.
  match goal with |- context [foldl CentralNode.receive (s1, ?a) arr2] =>
    pose proof (cn_receive_all_frame arr2 (s1, a)) as (G1 & G2 & G3 & G4);
    destruct (foldl CentralNode.receive (s1, a) arr2) as [s2 a3] end; cbn [fst snd] in *.
  split_and!.
  - rewrite pdus_sent_app, G3, pdus_sent_app, H3. cbn.
    unfold CentralNode.discovery_pdu. by rewrite H1, H2.
  - cbn. congruence.
  - reflexivity.
  - intros i. cbn. rewrite G4, H4. setoid_rewrite elem_of_app. split.
    + intros [[Hi | (q & Hq & -> & Ht)] | (q & Hq & -> & Ht)]; eauto 6.
    + intros [Hi | (q & [Hq | Hq] & -> & Ht)]; eauto 6.
Qed.

(** C5, as the claim words it, fails: handling a HELLO from node 3 in the
    coordinator's initial state records 3 as discovered and leaves 3 in
    [missing_ids]. *)
Lemma C5_counterexample :
  ~ (forall (self : CentralNode.t) (pdu : PDU Payload),
       pdu_type pdu = "HELLO" ->
       src pdu ∉ CentralNode.discovered_ids self ->
       let self' := (CentralNode.on_receive_pdu self pdu).1 in
       src pdu ∈ CentralNode.discovered_ids self' /\ src pdu ∉ CentralNode.missing_ids self').
Proof.
  intros H.
  destruct (H (CentralNode.init 0) (hello_from 3)) as [_ Hmiss].
  - reflexivity.
  - simpl. apply not_elem_of_nil.
  - apply Hmiss. apply (bool_decide_unpack _). vm_compute. exact I.
Qed.

(** C5, amended. Handling a HELLO whose source is not yet in
    [discovered_ids] appends the source to [discovered_ids] and leaves
    [missing_ids] as it is; handling one whose source is already there
    changes nothing. The source leaves [missing_ids] when [run] recomputes
    the list at the end of the pass: after that recomputation, and after any
    pass during which the HELLO arrived, [missing_ids] does not contain it. *)
Theorem C5_hello_handling (self : CentralNode.t) (pdu : PDU Payload) :
  pdu_type pdu = "HELLO" ->
  let self' := (CentralNode.on_receive_pdu self pdu).1 in
  (src pdu ∉ CentralNode.discovered_ids self ->
     CentralNode.discovered_ids self' = CentralNode.discovered_ids self ++ [src pdu]
     /\ CentralNode.missing_ids self' = CentralNode.missing_ids self)
  /\ (src pdu ∈ CentralNode.discovered_ids self -> self' = self)
  /\ (src pdu ∉ CentralNode.missing_ids (CentralNode.update_missing self'))
  /\ (forall arr1 arr2, pdu ∈ arr1 ++ arr2 ->
        src pdu ∉ CentralNode.missing_ids (CentralNode.discovery_round self arr1 arr2).1).
Proof.
  intros Ht. simpl. split_and!.
  - intros Hnot. unfold CentralNode.on_receive_pdu. rewrite Ht. cbn.
    by rewrite bool_decide_eq_false_2.
  - intros Hin. unfold CentralNode.on_receive_pdu. rewrite Ht. cbn.
    by rewrite bool_decide_eq_true_2.
  - destruct (cn_on_receive_pdu_frame self pdu) as (_ & _ & _ & Hd).
    unfold CentralNode.update_missing; simpl. rewrite list_elem_of_filter.
    intros [Hnot _]. apply Hnot, Hd. auto.
  - intros arr1 arr2 Hin.
    destruct (discovery_round_spec self arr1 arr2) as (_ & _ & Hm & Hd).
    rewrite Hm, list_elem_of_filter. intros [Hnot _]. apply Hnot, Hd.
    right. exists pdu. auto.
Qed.

Lemma C5_hello_handling_witness :
  CentralNode.discovered_ids (CentralNode.on_receive_pdu (CentralNode.init 0) (hello_from 3)).1
  = [3]
  /\ CentralNode.missing_ids (CentralNode.on_receive_pdu (CentralNode.init 0) (hello_from 3)).1
     = Lab06.all_ids.
Proof.
  destruct (C5_hello_handling (CentralNode.init 0) (hello_from 3)) as (H & _).
  - reflexivity.
  - apply H. simpl. apply not_elem_of_nil.
Defined.

(** *** Bookkeeping at the end of a pass *)

Lemma all_ids_range (i : nat) :
  i ∈ Lab06.all_ids <-> 1 <= i <= Lab06.NUM_DEVICES.
Proof. unfold Lab06.all_ids. rewrite elem_of_seq. lia. Qed.

Lemma bookkeeping_ok_init (id : nat) : bookkeeping_ok (CentralNode.init id).
Proof.
  split; simpl; intros i.
  - intros H. by apply elem_of_nil in H.
  - split; [intros H; split; [done | apply not_elem_of_nil] | by intros [H _]].
Qed.

Lemma bookkeeping_ok_round (c : CentralNode.t) (arr1 arr2 : list (PDU Payload)) :
  (forall pdu, pdu ∈ arr1 ++ arr2 -> pdu_type pdu = "HELLO" ->
               1 <= src pdu <= Lab06.NUM_DEVICES) ->
  bookkeeping_ok c ->
  bookkeeping_ok (CentralNode.discovery_round c arr1 arr2).1.
Proof.
  intros Hsrc [Hd _].
  destruct (discovery_round_spec c arr1 arr2) as (_ & _ & Hm & Hdisc).
  split; intros i.
  - rewrite Hdisc. intros [Hi | (pdu & Hin & -> & Ht)]; [auto|].
    apply all_ids_range. auto.
  - rewrite Hm, list_elem_of_filter. tauto.
Qed.

Lemma node_after_snoc (env : list (list (PDU Payload) * list (PDU Payload)))
      (arr : list (PDU Payload) * list (PDU Payload)) (c : CentralNode.t) :
  CentralNode.node_after (env ++ [arr]) c
  = (CentralNode.discovery_round (CentralNode.node_after env c) arr.1 arr.2).1.
Proof. unfold CentralNode.node_after. rewrite foldl_app. by destruct arr. Qed.

Lemma bookkeeping_ok_node_after (id : nat)
      (env : list (list (PDU Payload) * list (PDU Payload))) :
  (forall arr pdu, arr ∈ env -> pdu ∈ arr.1 ++ arr.2 -> pdu_type pdu = "HELLO" ->
                   1 <= src pdu <= Lab06.NUM_DEVICES) ->
  bookkeeping_ok (CentralNode.node_after env (CentralNode.init id)).
Proof.
  induction env as [|arr env IH] using rev_ind; intros Hsrc.
  - apply bookkeeping_ok_init.
  - rewrite node_after_snoc. apply bookkeeping_ok_round.
    + intros pdu Hin. apply (Hsrc arr); [|done]. rewrite elem_of_app, list_elem_of_singleton. auto.
    + apply IH. intros arr' pdu Hin. apply Hsrc. rewrite elem_of_app. auto.
Qed.

(** C6. Start from the coordinator of [__init__] and let any number of
    passes of the loop body complete, during which the HELLO PDUs that
    arrive come from the regular nodes (ids 1 to NUM_DEVICES, the only
    senders of HELLO in the simulation). After each pass [discovered_ids]
    and [missing_ids] have no element in common and together hold exactly
    the ids 1, ..., NUM_DEVICES. *)
Theorem C6_round_invariant (id : nat)
        (env : list (list (PDU Payload) * list (PDU Payload))) :
  (forall arr pdu, arr ∈ env -> pdu ∈ arr.1 ++ arr.2 -> pdu_type pdu = "HELLO" ->
                   1 <= src pdu <= Lab06.NUM_DEVICES) ->
  let c := CentralNode.node_after env (CentralNode.init id) in
  let discovered : gset nat := list_to_set (CentralNode.discovered_ids c) in
  let missing : gset nat := list_to_set (CentralNode.missing_ids c) in
  discovered ## missing
  /\ discovered ∪ missing = list_to_set Lab06.all_ids
  /\ (forall i, i ∈ discovered ∪ missing <-> 1 <= i <= Lab06.NUM_DEVICES).
Proof.
  intros Hsrc c discovered missing.
  destruct (bookkeeping_ok_node_after id env Hsrc) as [Hd Hm]. fold c in Hd, Hm.
  assert (Hunion : forall i, i ∈ discovered ∪ missing <-> i ∈ Lab06.all_ids).
  { intros i. subst discovered missing.
    rewrite elem_of_union, !elem_of_list_to_set, Hm.
    split; [intros [? | [? ?]]; auto |].
    intros Hall. destruct (decide (i ∈ CentralNode.discovered_ids c)); auto. }
  split_and!.
  - subst discovered missing. intros i. rewrite !elem_of_list_to_set, Hm. tauto.
  - apply set_eq. intros i. by rewrite Hunion, elem_of_list_to_set.
  - intros i. by rewrite Hunion, all_ids_range.
Qed.

Lemma C6_round_invariant_witness :
  let c := CentralNode.node_after [([hello_from 7], [hello_from 3; hello_from 7])]
                            (CentralNode.init 0) in
  (list_to_set (CentralNode.discovered_ids c) : gset nat) ## list_to_set (CentralNode.missing_ids c)
  /\ (list_to_set (CentralNode.discovered_ids c) : gset nat) ∪ list_to_set (CentralNode.missing_ids c)
     = list_to_set Lab06.all_ids.
Proof.
  destruct (C6_round_invariant 0 [([hello_from 7], [hello_from 3; hello_from 7])])
    as (H1 & H2 & _).
  - intros arr pdu Harr Hpdu _. apply list_elem_of_singleton in Harr. subst arr.
    simpl in Hpdu. rewrite !elem_of_cons in Hpdu. unfold Lab06.NUM_DEVICES.
    destruct Hpdu as [-> | [-> | [-> | H]]]; simpl; try lia.
    by apply elem_of_nil in H.
  - split; [exact H1 | exact H2].
Defined.

(** *** The retry loop *)

Lemma node_after_cons (arr : list (PDU Payload) * list (PDU Payload))
      (env : list (list (PDU Payload) * list (PDU Payload))) (c : CentralNode.t) :
  CentralNode.node_after (arr :: env) c
  = CentralNode.node_after env (CentralNode.discovery_round c arr.1 arr.2).1.
Proof. by destruct arr. Qed.

Lemma run_unfold_cons (arr1 arr2 : list (PDU Payload))
      (env : list (list (PDU Payload) * list (PDU Payload))) (self : CentralNode.t) :
  CentralNode.missing_ids self <> [] ->
  let self' := (CentralNode.discovery_round self arr1 arr2).1 in
  let r := CentralNode.run env self' in
  CentralNode.run ((arr1, arr2) :: env) self
  = CentralNode.mkRunResult (CentralNode.final r) (S (CentralNode.rounds r))
      (CentralNode.discovery_pdu self :: CentralNode.broadcasts r) (CentralNode.stop r).
Proof.
  intros Hne. simpl. destruct (CentralNode.missing_ids self) as [|m ms] eqn:Hm; [done|].
  pose proof (discovery_round_spec self arr1 arr2) as (Hs & _).
  destruct (CentralNode.discovery_round self arr1 arr2) as [self' acts]; simpl in *.
  by rewrite Hs.
Qed.

Lemma run_spec (env : list (list (PDU Payload) * list (PDU Payload)))
      (self : CentralNode.t) :
  let r := CentralNode.run env self in
  let after j := CentralNode.node_after (take j env) self in
  CentralNode.rounds r <= length env
  /\ CentralNode.final r = after (CentralNode.rounds r)
  /\ length (CentralNode.broadcasts r) = CentralNode.rounds r
  /\ (forall j, j < CentralNode.rounds r ->
        CentralNode.missing_ids (after j) <> []
        /\ CentralNode.broadcasts r !! j = Some (CentralNode.discovery_pdu (after j)))
  /\ (CentralNode.stop r = CentralNode.Converged <-> CentralNode.missing_ids (CentralNode.final r) = [])
  /\ (CentralNode.stop r = CentralNode.BudgetExhausted <->
        CentralNode.rounds r = length env /\ CentralNode.missing_ids (CentralNode.final r) <> [])
  /\ (forall j, j < length env ->
        (forall i, i <= j -> CentralNode.missing_ids (after i) <> []) ->
        j < CentralNode.rounds r).
Proof.
  revert self. induction env as [|[arr1 arr2] env IH]; intros self.
  - simpl. destruct (CentralNode.missing_ids self) as [|m ms] eqn:Hm; simpl;
      rewrite ?Hm; split_and!; try done; try lia; try (intros; lia);
      try (intuition congruence).
  - destruct (CentralNode.missing_ids self) as [|m ms] eqn:Hm.
    + simpl. rewrite Hm. simpl. rewrite Hm.
      split_and!; try done; try lia; try (intros; lia).
      * split; [done | intros [? _]; lia].
      * intros j _ Hall. exfalso. apply (Hall 0); [lia | exact Hm].
    + assert (Hne : CentralNode.missing_ids self <> []) by (rewrite Hm; done).
      rewrite (run_unfold_cons arr1 arr2 env self Hne).
      destruct (IH (CentralNode.discovery_round self arr1 arr2).1)
        as (I1 & I2 & I3 & I4 & I5 & I6 & I7).
      cbn zeta. cbn [CentralNode.final CentralNode.rounds CentralNode.broadcasts CentralNode.stop].
      split_and!.
      * simpl. lia.
      * exact I2.
      * simpl. by rewrite I3.
      * intros [|j] Hj.
        -- split; [exact Hne | reflexivity].
        -- apply (I4 j). lia.
      * exact I5.
      * rewrite I6. simpl. split; intros [? ?]; split; auto; lia.
      * intros [|j] Hj Hall; [lia|].
        apply -> Nat.succ_lt_mono. apply I7; [simpl in Hj; lia|].
        intros i Hi. apply (Hall (S i)). lia.
Qed.

(** C7. [run] on an environment that leaves time for [length env] passes:
    it makes a pass only while [missing_ids] is not empty; pass j opens with
    the broadcast of one DISCOVERY PDU whose payload is [missing_ids] as it
    stands after the j earlier passes, which from the second pass on is the
    list of ids of 1..NUM_DEVICES not in [discovered_ids] at the end of the
    last pass; it stops as converged exactly when [missing_ids] is empty, and
    otherwise only because the environment ran out: as long as [missing_ids]
    stays non-empty, every pass the environment allows is made, whatever
    their number. *)
Theorem C7_retry_loop (env : list (list (PDU Payload) * list (PDU Payload)))
        (self : CentralNode.t) :
  let r := CentralNode.run env self in
  let after j := CentralNode.node_after (take j env) self in
  CentralNode.rounds r <= length env
  /\ CentralNode.final r = after (CentralNode.rounds r)
  /\ length (CentralNode.broadcasts r) = CentralNode.rounds r
  /\ (forall j, j < CentralNode.rounds r ->
        CentralNode.missing_ids (after j) <> []
        /\ CentralNode.broadcasts r !! j
           = Some (mkPDU 20 (CentralNode.id self) Broadcast "DISCOVERY"
                         (IdsData (CentralNode.missing_ids (after j)))))
  /\ (forall j, j < length env ->
        CentralNode.missing_ids (after (S j))
        = filter (fun i => i ∉ CentralNode.discovered_ids (after (S j))) Lab06.all_ids)
  /\ (CentralNode.stop r = CentralNode.Converged <-> CentralNode.missing_ids (CentralNode.final r) = [])
  /\ (CentralNode.stop r = CentralNode.BudgetExhausted <->
        CentralNode.rounds r = length env /\ CentralNode.missing_ids (CentralNode.final r) <> [])
  /\ (forall j, j < length env ->
        (forall i, i <= j -> CentralNode.missing_ids (after i) <> []) ->
        j < CentralNode.rounds r)
  /\ ((forall j, j <= length env -> CentralNode.missing_ids (after j) <> []) ->
        CentralNode.rounds r = length env /\ CentralNode.stop r = CentralNode.BudgetExhausted).
Proof.
  intros r after. subst r after. cbn beta.
  pose proof (run_spec env self) as H. cbn zeta beta in H.
  destruct H as (H1 & H2 & H3 & H4 & H5 & H6 & H7).
  assert (Hid : forall l, CentralNode.id (CentralNode.node_after l self) = CentralNode.id self).
  { intros l. induction l as [|arr l IHl] using rev_ind; [done|].
    rewrite node_after_snoc.
    destruct (discovery_round_spec (CentralNode.node_after l self) arr.1 arr.2)
      as (_ & Hc & _). congruence. }
  split_and!; try done.
  - intros j Hj. destruct (H4 j Hj) as [Hne Hb]. split; [done|].
    rewrite Hb. unfold CentralNode.discovery_pdu. by rewrite Hid.
  - intros j Hj.
    destruct (lookup_lt_is_Some_2 env j Hj) as [arr Harr].
    rewrite (take_S_r env j arr Harr), node_after_snoc.
    by destruct (discovery_round_spec (CentralNode.node_after (take j env) self) arr.1 arr.2)
      as (_ & _ & Hm & _).
  - intros Hall.
    assert (Hr : CentralNode.rounds (CentralNode.run env self) = length env).
    { destruct (decide (CentralNode.rounds (CentralNode.run env self) = length env)) as [|Hneq];
        [done|].
      assert (Hlt : CentralNode.rounds (CentralNode.run env self) < length env) by lia.
      pose proof (H7 _ Hlt) as Hc.
      assert (CentralNode.rounds (CentralNode.run env self) < CentralNode.rounds (CentralNode.run env self));
        [|lia].
      apply Hc. intros i Hi. apply Hall. lia. }
    split; [done|]. apply H6. split; [done|]. rewrite H2. apply Hall. lia.
Qed.

(** ** Answering a discovery request *)

Lemma delayed_exec_armed {L C : Type} (delay : float) (cb : C) :
  PrimFloat.leb delay 0 = false ->
  delayed_exec (L := L) delay cb = Some [DelayedExec delay cb].
Proof. intros H. unfold delayed_exec. by rewrite H. Qed.

Lemma delayed_exec_raises {L C : Type} (delay : float) (cb : C) :
  PrimFloat.leb delay 0 = true -> delayed_exec (L := L) delay cb = None.
Proof. intros H. unfold delayed_exec. by rewrite H. Qed.

Lemma delayed_exec_inv {L C : Type} (delay : float) (cb : C) (acts : list (Action L C)) :
  delayed_exec delay cb = Some acts ->
  PrimFloat.leb delay 0 = false /\ acts = [DelayedExec delay cb].
Proof.
  unfold delayed_exec. destruct (PrimFloat.leb delay 0); [done|].
  intros [= <-]. done.
Qed.

(** The draw 0.0 of [random()] makes the delay 0.0, which
    [sim.delayed_exec] refuses. *)
Lemma uniform_zero_draw :
  uniform 0 Lab06.HELLO_TIMEOUT 0 = 0%float
  /\ uniform 0 A1.HELLO_TIMEOUT 0 = 0%float
  /\ PrimFloat.leb 0 0 = true.
Proof. vm_compute. auto. Qed.

Lemma rn_on_receive_pdu_responded (self self' : RegularNode.t)
      (pdu : PDU Payload) (u : float) (acts : list Lab06.Act) :
  RegularNode.on_receive_pdu self pdu u = Some (self', acts) ->
  RegularNode.id self' = RegularNode.id self
  /\ RegularNode.responded self' = RegularNode.responded self || is_discovery pdu.
Proof.
  unfold RegularNode.on_receive_pdu, is_discovery.
  destruct (String.eqb (pdu_type pdu) "DISCOVERY").
  - destruct (RegularNode.responded self) eqn:Hr; simpl.
    + destruct (RegularNode.id_in_data (RegularNode.id self) (data pdu)) as [[|]|]; simpl;
        [destruct (delayed_exec _ _); simpl | |];
        intros [= <- <-]; simpl; rewrite ?Hr; done.
    + destruct (delayed_exec _ _); simpl; intros [= <- <-]. done.
  - intros [= <- <-]. by rewrite orb_false_r.
Qed.

Lemma rn_handle_all_responded (h : list (PDU Payload * float))
      (self self' : RegularNode.t) :
  RegularNode.handle_all self h = Some self' ->
  RegularNode.id self' = RegularNode.id self
  /\ RegularNode.responded self'
     = RegularNode.responded self || existsb is_discovery h.*1.
Proof.
  revert self. induction h as [|[pdu u] h IH]; intros self; simpl.
  - intros [= <-]. by rewrite orb_false_r.
  - destruct (RegularNode.on_receive_pdu self pdu u) as [[s1 acts]|] eqn:H1; [|done].
    simpl. intros H2.
    destruct (rn_on_receive_pdu_responded _ _ _ _ _ H1) as [Hi Hr].
    destruct (IH _ H2) as [Hi' Hr'].
    split; [congruence|]. by rewrite Hr', Hr, orb_assoc.
Qed.

Lemma first_request_iff (h : list (PDU Payload)) :
  existsb is_discovery h = false <-> (forall q, q ∈ h -> pdu_type q <> "DISCOVERY").
Proof.
  induction h as [|q h IH]; simpl.
  - split; [|done]. intros _ q Hq. by apply elem_of_nil in Hq.
  - rewrite orb_false_iff, IH. unfold is_discovery. rewrite String.eqb_neq.
    split.
    + intros [Hq Hh] q' Hin. apply elem_of_cons in Hin as [-> | Hin]; auto.
    + intros Hall. split; [|intros q' Hin]; apply Hall; rewrite elem_of_cons; auto.
Qed.

(** What the handler of a regular node does with a DISCOVERY PDU that
    carries a list of ids. *)
Lemma rn_on_discovery (self : RegularNode.t) (pdu : PDU Payload) (ids : list nat)
      (u : float) :
  pdu_type pdu = "DISCOVERY" ->
  data pdu = IdsData ids ->
  RegularNode.on_receive_pdu self pdu u
  = if negb (RegularNode.responded self) || bool_decide (RegularNode.id self ∈ ids) then
      timer ← delayed_exec (uniform 0 Lab06.HELLO_TIMEOUT u) Lab06.send_hello_cb;
      Some (RegularNode.mk (RegularNode.id self) (RegularNode.received_discovery self) true,
            [Log (Lab06.RnReceivedDiscovery (RegularNode.id self) (src pdu));
             Log (Lab06.SchedulingHello (RegularNode.id self)
                    (uniform 0 Lab06.HELLO_TIMEOUT u))] ++ timer)
    else Some (self, [Log (Lab06.RnReceivedDiscovery (RegularNode.id self) (src pdu))]).
Proof.
  intros Ht Hd. unfold RegularNode.on_receive_pdu. rewrite Ht, Hd.
  cbn [String.eqb Ascii.eqb Bool.eqb RegularNode.id_in_data].
  destruct (RegularNode.responded self); cbn [negb orb mbind option_bind];
    [case_bool_decide|]; cbn [mbind option_bind]; try reflexivity;
    destruct (delayed_exec _ _); reflexivity.
Qed.

(** *** The base station of a1.py sends one BS-HELLO *)

Lemma bs_receive_frame (st : BaseStation.t * list A1.Act) (pdu : PDU Payload) :
  let st' := BaseStation.receive st pdu in
  BaseStation.id st'.1 = BaseStation.id st.1
  /\ BaseStation.schedule st'.1 = BaseStation.schedule st.1
  /\ pdus_sent st'.2 = pdus_sent st.2.
Proof.
  destruct st as [self acts]. unfold BaseStation.receive.
  destruct (A1.CustomMacLayer.on_receive_pdu (BaseStation.id self) pdu) as [lg r] eqn:Hmac.
  assert (Hlg : lg = [A1.MacReceived (src pdu) (pdu_type pdu)]).
  { unfold A1.CustomMacLayer.on_receive_pdu in Hmac. congruence. }
  subst lg. destruct r as [p | p |]; cbn [fst snd map].
  - unfold BaseStation.on_receive_pdu.
    repeat match goal with |- context [if ?b then _ else _] => destruct b end;
      cbn [fst snd]; split_and!; try done;
      rewrite pdus_sent_app; cbn; by rewrite app_nil_r.
  - split_and!; try done. rewrite pdus_sent_app. cbn. by rewrite app_nil_r.
  - split_and!; try done. rewrite pdus_sent_app. cbn. by rewrite app_nil_r.
Qed.

Lemma bs_receive_all_frame (arr : list (PDU Payload))
      (st : BaseStation.t * list A1.Act) :
  let st' := foldl BaseStation.receive st arr in
  BaseStation.id st'.1 = BaseStation.id st.1
  /\ BaseStation.schedule st'.1 = BaseStation.schedule st.1
  /\ pdus_sent st'.2 = pdus_sent st.2.
Proof.
  revert st. induction arr as [|pdu arr IH]; intros st; simpl; [done|].
  destruct (IH (BaseStation.receive st pdu)) as (H1 & H2 & H3).
  destruct (bs_receive_frame st pdu) as (G1 & G2 & G3).
  split_and!; congruence.
Qed.

Lemma bs_run_sends (self : BaseStation.t) (arr1 arr2 : list (PDU Payload)) :
  let r := BaseStation.run self arr1 arr2 in
  pdus_sent r.2 = [BaseStation.hello_pdu self; BaseStation.sched_pdu r.1]
  /\ (BaseStation.schedule self = [] ->
      BaseStation.schedule r.1
      = map (fun e => (e.2, e.1)) (enumerate (BaseStation.discovered_devices r.1))).
Proof.
  unfold BaseStation.run.
  pose proof (bs_receive_all_frame arr1 (self, [Timeout 5])) as (H1 & H2 & H3).
  destruct (foldl BaseStation.receive (self, [Timeout 5]) arr1) as [s1 a1];
    cbn [fst snd] in *.
  match goal with |- context [foldl BaseStation.receive (s1, ?a) arr2] =>
    pose proof (bs_receive_all_frame arr2 (s1, a)) as (G1 & G2 & G3);
    destruct (foldl BaseStation.receive (s1, a) arr2) as [s2 a3] end; cbn [fst snd] in *.
  split.
  - rewrite !pdus_sent_app, G3, pdus_sent_app, H3. cbn.
    unfold BaseStation.hello_pdu. by rewrite H1.
  - intros Hempty. rewrite create_schedule_spec, G2, H2, Hempty. cbn [app].
    f_equal. unfold BaseStation.create_schedule.
    assert (Hd : forall l s,
      BaseStation.discovered_devices
        (foldl (fun s '(idx, device_id) => BaseStation.schedule_append s (device_id, idx)) s l)
      = BaseStation.discovered_devices s).
    { induction l as [|[i d] l IHl]; intros s; simpl; [done|]. by rewrite IHl. }
    by rewrite Hd.
Qed.

(** C8. A regular node of lab06.py that has handled the history [h] since
    [__init__] and now receives a DISCOVERY PDU listing [ids], with [u] the
    draw behind [random.uniform(0, HELLO_TIMEOUT)] and
    [delay = uniform 0 HELLO_TIMEOUT u] the jitter. If no earlier PDU of [h]
    was a DISCOVERY (this is its first request) or its id is in [ids], then
    for a jitter above 0 the handler arms exactly one timer, for
    [send_hello], after that jitter, and [send_hello] sends one HELLO to
    node 0; but for a jitter of 0 (or less) the handler raises, out of
    [sim.delayed_exec], and schedules nothing: so it does at the draw 0.0.
    Otherwise (the node answered a request before and is not listed) it arms
    no timer and stays as it is. The handler itself sends nothing. In a1.py
    a device handles each BS-HELLO in the same way, raising at the draw 0.0,
    and the base station sends BS-HELLO once in its run, so the request a
    device receives is its first. *)
Theorem C8_discovery_response (id : nat) (h : list (PDU Payload * float))
        (self : RegularNode.t) (pdu : PDU Payload) (ids : list nat) (u : float) :
  RegularNode.handle_all (RegularNode.init id) h = Some self ->
  pdu_type pdu = "DISCOVERY" ->
  data pdu = IdsData ids ->
  let first := forall q, q ∈ h.*1 -> pdu_type q <> "DISCOVERY" in
  let delay := uniform 0 Lab06.HELLO_TIMEOUT u in
  (first \/ id ∈ ids ->
     (PrimFloat.leb delay 0 = false ->
        exists self' acts,
          RegularNode.on_receive_pdu self pdu u = Some (self', acts)
          /\ pdus_sent acts = []
          /\ timers acts = [(delay, Lab06.send_hello_cb)]
          /\ RegularNode.responded self' = true
          /\ pdus_sent (RegularNode.send_hello self') = [hello_from id])
     /\ (PrimFloat.leb delay 0 = true -> RegularNode.on_receive_pdu self pdu u = None)
     /\ RegularNode.on_receive_pdu self pdu 0 = None)
  /\ (~ (first \/ id ∈ ids) ->
        exists acts,
          RegularNode.on_receive_pdu self pdu u = Some (self, acts)
          /\ pdus_sent acts = []
          /\ timers acts = []
          /\ RegularNode.responded self = true)
  /\ (forall (dev : Device.t) (q : PDU Payload),
        pdu_type q = "BS-HELLO" ->
        (PrimFloat.leb (uniform 0 A1.HELLO_TIMEOUT u) 0 = false ->
           exists acts,
             Device.on_receive_pdu dev q u = Some (dev, acts)
             /\ pdus_sent acts = []
             /\ timers acts = [(uniform 0 A1.HELLO_TIMEOUT u, A1.send_hello_cb)])
        /\ (PrimFloat.leb (uniform 0 A1.HELLO_TIMEOUT u) 0 = true ->
              Device.on_receive_pdu dev q u = None)
        /\ Device.on_receive_pdu dev q 0 = None)
  /\ (forall (bs : BaseStation.t) (arr1 arr2 : list (PDU Payload)),
        filter (fun q => pdu_type q = "BS-HELLO") (pdus_sent (BaseStation.run bs arr1 arr2).2)
        = [BaseStation.hello_pdu bs]).
Proof.
  intros Hh Ht Hd first delay.
  destruct (rn_handle_all_responded h _ _ Hh) as [Hid Hresp]. simpl in Hid, Hresp.
  assert (Hcond : negb (RegularNode.responded self)
                  || bool_decide (RegularNode.id self ∈ ids) = true
                  <-> first \/ id ∈ ids).
  { rewrite orb_true_iff, negb_true_iff, bool_decide_eq_true, Hid, Hresp.
    unfold first. by rewrite first_request_iff. }
  split_and!.
  - intros Hyes. apply Hcond in Hyes. split_and!.
    + intros Hpos. rewrite (rn_on_discovery self pdu ids u Ht Hd), Hyes.
      fold delay. rewrite (delayed_exec_armed delay _ Hpos). cbn [mbind option_bind].
      eexists _, _. split; [reflexivity|]. rewrite Hid. split_and!; reflexivity.
    + intros Hneg. rewrite (rn_on_discovery self pdu ids u Ht Hd), Hyes.
      fold delay. by rewrite (delayed_exec_raises delay _ Hneg).
    + rewrite (rn_on_discovery self pdu ids 0 Ht Hd), Hyes.
      by rewrite delayed_exec_raises.
  - intros Hno. rewrite (rn_on_discovery self pdu ids u Ht Hd).
    destruct (negb (RegularNode.responded self)
              || bool_decide (RegularNode.id self ∈ ids)) eqn:Hc.
    + exfalso. apply Hno, Hcond. reflexivity.
    + eexists. split; [reflexivity|]. split_and!; try reflexivity.
      apply orb_false_iff in Hc as [Hc _]. by apply negb_false_iff in Hc.
  - intros dev q Hq. unfold Device.on_receive_pdu. rewrite Hq.
    cbn [String.eqb Ascii.eqb Bool.eqb]. cbv zeta. split_and!.
    + intros Hpos. rewrite (delayed_exec_armed _ _ Hpos). cbn [mbind option_bind].
      eexists. split; [reflexivity|]. split; reflexivity.
    + intros Hneg. by rewrite (delayed_exec_raises _ _ Hneg).
    + by rewrite delayed_exec_raises.
  - intros bs arr1 arr2. destruct (bs_run_sends bs arr1 arr2) as [Hs _].
    rewrite Hs. reflexivity.
Qed.

Lemma C8_discovery_response_witness :
  RegularNode.on_receive_pdu (RegularNode.init 4)
    (mkPDU 20 0 Broadcast "DISCOVERY" (IdsData (seq 1 50))) 0
  = None.
Proof.
  destruct (C8_discovery_response 4 [] (RegularNode.init 4)
              (mkPDU 20 0 Broadcast "DISCOVERY" (IdsData (seq 1 50))) (seq 1 50) 0.5)
    as (H & _).
  - reflexivity.
  - reflexivity.
  - reflexivity.
  - destruct H as (_ & _ & H0).
    + left. intros q Hq. by apply elem_of_nil in Hq.
    + exact H0.
Defined.

(** A first DISCOVERY answered after a jitter of 0.05, and the same
    request at the draw 0.0. *)
Example lab06_first_request :
  timers <$> (snd <$> RegularNode.on_receive_pdu (RegularNode.init 4)
                        (mkPDU 20 0 Broadcast "DISCOVERY" (IdsData (seq 1 50))) 0.5)
  = Some [(0.05%float, Lab06.send_hello_cb)]
  /\ RegularNode.on_receive_pdu (RegularNode.init 4)
       (mkPDU 20 0 Broadcast "DISCOVERY" (IdsData (seq 1 50))) 0 = None
  /\ Device.on_receive_pdu (Device.init 4) (mkPDU 20 0 Broadcast "BS-HELLO" NoData) 0 = None.
Proof. vm_compute. auto. Qed.

(** ** Periodic transmission in the assigned slot *)

Lemma chain_times_length (t F : float) (n : nat) : length (A1.chain_times t F n) = n.
Proof. revert t. induction n as [|n IH]; intros t; simpl; [done | by rewrite IH]. Qed.

Lemma chain_times_lookup (F : float) (n : nat) :
  forall (t : float) (k : nat), k < n ->
    A1.chain_times t F n !! k = Some (A1.chain_instant t F k).
Proof.
  induction n as [|n IH]; intros t k Hk; [lia|].
  destruct k as [|k]; simpl; [done|]. apply IH. lia.
Qed.

Lemma chain_times_snoc (F : float) (n : nat) :
  forall t : float,
    A1.chain_times t F (S n) = A1.chain_times t F n ++ [A1.chain_instant t F n].
Proof.
  induction n as [|n IH]; intros t; [done|].
  change (A1.chain_times t F (S (S n))) with (t :: A1.chain_times (t + F)%float F (S n)).
  rewrite IH. reflexivity.
Qed.

Lemma chain_times_prefix (F : float) (t : float) (m n : nat) :
  m <= n -> A1.chain_times t F m `prefix_of` A1.chain_times t F n.
Proof.
  induction 1 as [|n Hle IH]; [done|].
  etrans; [exact IH|]. rewrite chain_times_snoc. by apply prefix_app_r.
Qed.

Lemma chain_times_below (F : float) (t : float) (m k : nat) :
  forallb below_horizon (A1.chain_times t F m) = true ->
  k < m ->
  below_horizon (A1.chain_instant t F k) = true.
Proof.
  intros Hall Hk. rewrite forallb_forall in Hall. apply Hall.
  apply list_elem_of_In, list_elem_of_lookup. exists k. by apply chain_times_lookup.
Qed.

Lemma forallb_below_Forall (l : list float) :
  forallb below_horizon l = true ->
  Forall (fun t => PrimFloat.ltb t A1.SIM_DURATION = true) l.
Proof.
  intros Hall. rewrite forallb_forall in Hall. apply Forall_forall.
  intros x Hx. apply Hall. by apply list_elem_of_In.
Qed.

(** The first entry of the slot list that names the device. *)
Lemma own_slot_exists (i0 : nat) (slots : list (nat * nat)) :
  i0 ∈ slots.*1 ->
  exists i slot,
    slots !! i = Some (i0, slot)
    /\ (forall j e, j < i -> slots !! j = Some e -> e.1 <> i0).
Proof.
  induction slots as [|[d k] slots IH]; intros Hin.
  - by apply elem_of_nil in Hin.
  - destruct (decide (d = i0)) as [-> | Hne].
    + exists 0, k. split; [done|]. intros; lia.
    + rewrite fmap_cons, elem_of_cons in Hin. destruct Hin as [Hin | Hin]; [done|].
      destruct (IH Hin) as (i & slot & Hi & Hfirst).
      exists (S i), slot. split; [done|].
      intros [|j] e Hj He; simpl in He.
      * by injection He as <-.
      * apply (Hfirst j); [lia | done].
Qed.

Lemma find_own_slot_first (self : Device.t) (sd : float) (slot : nat) :
  Device.start_delay self = Some sd ->
  forall (i : nat) (slots : list (nat * nat)),
    slots !! i = Some (Device.id self, slot) ->
    (forall j e, j < i -> slots !! j = Some e -> e.1 <> Device.id self) ->
    Device.find_own_slot self slots
    = timer ← delayed_exec (sd + float_of_nat slot * A1.SLOT_DURATION) A1.send_data_cb;
      Some (Device.mk (Device.id self) (Some slot)
                        (Device.schedule_frame_length self) (Some sd),
            Log (A1.ReceivedSchedule (Device.id self) slot) :: timer).
Proof.
  intros Hsd. induction i as [|i IH]; intros [|[d k] slots] Hi Hfirst; try done.
  - injection Hi as -> ->. simpl. rewrite Nat.eqb_refl, Hsd. reflexivity.
  - simpl in Hi. simpl.
    destruct (Nat.eqb_spec d (Device.id self)) as [Heq | Hne].
    + exfalso. apply (Hfirst 0 (d, k)); [lia | done | done].
    + apply IH; [done|]. intros j e Hj He. apply (Hfirst (S j)); [lia | done].
Qed.

Lemma run_events_idle (fuel : nat) (s : A1.Sim) :
  A1.queue s = [] -> A1.run_events fuel s = Some s.
Proof. intros Hq. destruct fuel; simpl; [done|]. by rewrite Hq. Qed.

Lemma send_data_past_horizon (self : Device.t) (t : float) :
  below_horizon t = false -> Device.send_data self t = Some [].
Proof. unfold below_horizon, Device.send_data. by intros ->. Qed.

Lemma send_data_last (self : Device.t) (t F : float) :
  Device.schedule_frame_length self = Some F ->
  below_horizon t = true -> below_horizon (t + F) = false ->
  Device.send_data self t
  = Some [SendPdu (Device.data_pdu self); Log (A1.SentData (Device.id self))].
Proof.
  unfold below_horizon, Device.send_data. intros -> -> Hn. simpl. by rewrite Hn.
Qed.

Lemma send_data_rearm (self : Device.t) (t F : float) :
  Device.schedule_frame_length self = Some F ->
  PrimFloat.leb F 0 = false ->
  below_horizon t = true -> below_horizon (t + F) = true ->
  Device.send_data self t
  = Some [SendPdu (Device.data_pdu self); Log (A1.SentData (Device.id self));
          DelayedExec F A1.send_data_cb].
Proof.
  unfold below_horizon, Device.send_data. intros -> HF -> Hn. simpl.
  by rewrite Hn, (delayed_exec_armed F _ HF).
Qed.

(** A frame length of 0 (or less) with time left: the PDU is sent, and the
    re-arming raises. *)
Lemma send_data_raises (self : Device.t) (t F : float) :
  Device.schedule_frame_length self = Some F ->
  PrimFloat.leb F 0 = true ->
  below_horizon t = true -> below_horizon (t + F) = true ->
  Device.send_data self t = None.
Proof.
  unfold below_horizon, Device.send_data. intros -> HF -> Hn. simpl.
  by rewrite Hn, (delayed_exec_raises F _ HF).
Qed.

(** A pending [send_data] timer, run with [fuel]: it transmits at the
    instants of its chain for as long as they are below the horizon, and
    either the chain has stopped at the first instant that is not, or the
    fuel is used up with the next timer pending. *)
Lemma chain_run (self : Device.t) (F : float) :
  Device.schedule_frame_length self = Some F ->
  PrimFloat.leb F 0 = false ->
  forall (fuel : nat) (t : float) (pre : list (float * PDU Payload)),
    exists (m : nat) (q : list (float * A1.Callback)),
      m <= fuel
      /\ A1.run_events fuel (A1.mkSim self [(t, A1.send_data_cb)] pre)
         = Some (A1.mkSim self q
                   (pre ++ map (fun x => (x, Device.data_pdu self)) (A1.chain_times t F m)))
      /\ forallb below_horizon (A1.chain_times t F m) = true
      /\ ((q = [] /\ below_horizon (A1.chain_instant t F m) = false /\ 0 < fuel)
          \/ (q = [(A1.chain_instant t F m, A1.send_data_cb)] /\ m = fuel
              /\ (0 < m -> below_horizon (A1.chain_instant t F m) = true))).
Proof.
  intros HF Hpos. induction fuel as [|fuel IH]; intros t pre.
  - exists 0, [(t, A1.send_data_cb)]. split; [lia|]. split.
    + simpl. by rewrite app_nil_r.
    + split; [done|]. right. split; [done|]. split; [done | lia].
  - cbn [A1.run_events A1.queue A1.dev A1.sent A1.run_callback].
    destruct (below_horizon t) eqn:Ht.
    + destruct (below_horizon (t + F)) eqn:Hn.
      * rewrite (send_data_rearm self t F HF Hpos Ht Hn).
        cbn [mbind option_bind A1.arm timers omap list_omap foldl A1.insert_event
             pdus_sent map].
        destruct (IH (t + F)%float (pre ++ [(t, Device.data_pdu self)]))
          as (m & q & Hm & Hrun & Hall & Hend).
        exists (S m), q. split; [lia|]. split; [|split].
        -- rewrite Hrun. cbn [A1.chain_times map]. by rewrite <- app_assoc.
        -- cbn [A1.chain_times forallb]. by rewrite Ht, Hall.
        -- cbn [A1.chain_instant].
           destruct Hend as [(Hq & Hstop & _) | (Hq & Hmf & Hb)].
           ++ left. split; [done|]. split; [done | lia].
           ++ right. split; [done|]. split; [lia|]. intros _.
              destruct m as [|m]; [exact Hn | apply Hb; lia].
      * rewrite (send_data_last self t F HF Ht Hn).
        cbn [mbind option_bind A1.arm timers omap list_omap foldl pdus_sent map].
        rewrite run_events_idle by reflexivity.
        exists 1, []. split; [lia|]. split; [done|]. split.
        -- cbn [A1.chain_times forallb]. by rewrite Ht.
        -- left. split; [done|]. split; [exact Hn | lia].
    + rewrite (send_data_past_horizon self t Ht).
      cbn [mbind option_bind A1.arm timers omap list_omap foldl pdus_sent map].
      rewrite run_events_idle by reflexivity.
      exists 0, []. split; [lia|]. split; [done|]. split; [done|].
      left. split; [done|]. split; [exact Ht | lia].
Qed.

Lemma data_times_of_chain (self self' : Device.t) (q : list (float * A1.Callback))
      (l : list float) :
  A1.data_times (A1.mkSim self' q (map (fun x => (x, Device.data_pdu self)) l)) = l.
Proof.
  unfold A1.data_times. cbn [A1.sent]. induction l as [|x l IH]; [done|].
  cbn [map]. rewrite filter_cons_True by reflexivity. cbn [map fst]. by rewrite IH.
Qed.

(** The chain stops at the first instant that is not below the horizon:
    how many PDUs a run sends is decided by the instants alone. *)
Lemma chain_stop_unique (F t : float) (m m' : nat) :
  forallb below_horizon (A1.chain_times t F m) = true ->
  below_horizon (A1.chain_instant t F m) = false ->
  forallb below_horizon (A1.chain_times t F m') = true ->
  below_horizon (A1.chain_instant t F m') = false ->
  m = m'.
Proof.
  intros Ha Hs Ha' Hs'.
  destruct (Nat.lt_trichotomy m m') as [Hlt | [Heq | Hgt]]; [|done|].
  - pose proof (chain_times_below F t m' m Ha' Hlt). congruence.
  - pose proof (chain_times_below F t m m' Ha Hgt). congruence.
Qed.

(** Three devices, a start delay of 0.5 and slot 0, scheduled at time 0.
    The closed form puts the transmissions at 0.5 + k * 0.3 and so has 165
    of them below the horizon of 50, the one for k = 165 falling on the
    horizon itself, in exact arithmetic as in doubles. The device sends 166
    DATA PDUs: its timer is re-armed by one double addition of the frame
    length 0.30000000000000004 after the other, and the 166th instant so
    reached is 49.99999999999988, below the horizon. So the number of
    PDUs sent is not the number of instants of the closed form below the
    horizon. *)
Lemma C1_counterexample :
  let pdu := BaseStation.sched_pdu
               (BaseStation.create_schedule (BaseStation.mk 0 [1; 2; 3] [])) in
  data pdu = SchedData 3 [(1, 0); (2, 1); (3, 2)] 0.5
  /\ (s ← A1.on_schedule (Device.init 1) pdu 0 ≫= A1.run_events 200;
      Some (A1.queue s, length (A1.data_times s), A1.data_times s !! 165))
     = Some ([], 166, Some 49.99999999999988%float)
  /\ PrimFloat.ltb 49.99999999999988 A1.SIM_DURATION = true
  /\ (closed_form_exact 0 (1 # 2) 0 3 165 == 50)%Q
  /\ (forall k : nat, (closed_form_exact 0 (1 # 2) 0 3 k < 50)%Q <-> k < 165)
  /\ length (filter (fun k => PrimFloat.ltb (closed_form_float 0 0.5 0 3 k) A1.SIM_DURATION
                              = true) (seq 0 200)) = 165
  /\ PrimFloat.ltb (closed_form_float 0 0.5 0 3 165) A1.SIM_DURATION = false
  /\ ~ (exists N : nat,
          (forall k : nat, (closed_form_exact 0 (1 # 2) 0 3 k < 50)%Q <-> k < N)
          /\ (s ← A1.on_schedule (Device.init 1) pdu 0 ≫= A1.run_events 200;
              Some (length (A1.data_times s))) = Some N).
Proof.
  cbv zeta.
  assert (Hcount : forall k : nat, (closed_form_exact 0 (1 # 2) 0 3 k < 50)%Q <-> k < 165).
  { intros k. unfold closed_form_exact.
    change (inject_Z (Z.of_nat 0)) with 0%Q. change (inject_Z (Z.of_nat 3)) with 3%Q.
    split; intros H.
    - assert (Hq : (inject_Z (Z.of_nat k) < inject_Z 165)%Q).
      { change (inject_Z 165) with 165%Q. lra. }
      rewrite <- Zlt_Qlt in Hq. lia.
    - assert (Hq : (inject_Z (Z.of_nat k) < inject_Z 165)%Q).
      { rewrite <- Zlt_Qlt. lia. }
      change (inject_Z 165) with 165%Q in Hq. lra. }
  split_and!.
  - reflexivity.
  - vm_compute. reflexivity.
  - reflexivity.
  - reflexivity.
  - exact Hcount.
  - vm_compute. reflexivity.
  - vm_compute. reflexivity.
  - intros (N & HN & Hlen).
    assert (Hrun : (s ← A1.on_schedule (Device.init 1)
                          (BaseStation.sched_pdu
                             (BaseStation.create_schedule (BaseStation.mk 0 [1; 2; 3] []))) 0
                        ≫= A1.run_events 200;
                    Some (length (A1.data_times s))) = Some 166)
      by (vm_compute; reflexivity).
    rewrite Hrun in Hlen. injection Hlen as <-.
    assert (H : 165 < 166) by lia. apply HN, Hcount in H. lia.
Qed.

(** C1, as the code has it. A device handed, at time [t0], a SCHED PDU
    whose first entry for its id gives it [slot], with a first delay
    [start_delay + slot * SLOT_DURATION] and a frame length
    [num_devices * SLOT_DURATION] that are above 0 (what [sim.delayed_exec]
    accepts), takes that slot, sets its frame length and arms one
    [send_data] timer for [first = t0 + (start_delay + slot * SLOT_DURATION)].
    All of this is double arithmetic. Its DATA PDUs, all to node 0, then go
    out at the instants [first], [first + F], [(first + F) + F], ..., each
    one double addition of the frame length after the one before: run with
    any fuel, the timers transmit at the first [m] of these instants and at
    no other time, every one of them below SIM_DURATION; every instant of
    the chain that is below the horizon, with all before it, is transmitted
    at, given the fuel; and once an instant of the chain is not below the
    horizon the chain has stopped, with no timer pending and nothing sent at
    or after that instant. *)
Theorem C1_tdma_transmission_times (self : Device.t) (pdu : PDU Payload)
        (n : nat) (slots : list (nat * nat)) (sd t0 : float) (i slot : nat) :
  data pdu = SchedData n slots sd ->
  slots !! i = Some (Device.id self, slot) ->
  (forall j e, j < i -> slots !! j = Some e -> e.1 <> Device.id self) ->
  let F := (float_of_nat n * A1.SLOT_DURATION)%float in
  let delay := (sd + float_of_nat slot * A1.SLOT_DURATION)%float in
  let first := (t0 + delay)%float in
  PrimFloat.leb delay 0 = false ->
  PrimFloat.leb F 0 = false ->
  exists self' : Device.t,
    Device.slot_number self' = Some slot
    /\ Device.schedule_frame_length self' = Some F
    /\ Device.process_schedule self pdu
       = Some (self', [Log (A1.ReceivedSchedule (Device.id self) slot);
                       DelayedExec delay A1.send_data_cb])
    /\ A1.on_schedule self pdu t0 = Some (A1.mkSim self' [(first, A1.send_data_cb)] [])
    /\ (forall fuel : nat,
          exists (s : A1.Sim) (m : nat),
            A1.run_events fuel (A1.mkSim self' [(first, A1.send_data_cb)] []) = Some s
            /\ m <= fuel
            /\ A1.sent s = map (fun t => (t, Device.data_pdu self')) (A1.chain_times first F m)
            /\ dest (Device.data_pdu self') = NodeId 0
            /\ A1.data_times s = A1.chain_times first F m
            /\ Forall (fun t => PrimFloat.ltb t A1.SIM_DURATION = true) (A1.data_times s)
            /\ (A1.queue s = []
                \/ (m = fuel
                    /\ A1.queue s = [(A1.chain_instant first F m, A1.send_data_cb)])))
    /\ (forall m fuel : nat,
          forallb below_horizon (A1.chain_times first F m) = true ->
          m <= fuel ->
          exists s : A1.Sim,
            A1.run_events fuel (A1.mkSim self' [(first, A1.send_data_cb)] []) = Some s
            /\ A1.chain_times first F m `prefix_of` A1.data_times s)
    /\ (forall m fuel : nat,
          forallb below_horizon (A1.chain_times first F m) = true ->
          below_horizon (A1.chain_instant first F m) = false ->
          m <= fuel -> 1 <= fuel ->
          A1.run_events fuel (A1.mkSim self' [(first, A1.send_data_cb)] [])
          = Some (A1.mkSim self' []
                    (map (fun t => (t, Device.data_pdu self')) (A1.chain_times first F m)))).
Proof.
  intros Hd Hi Hfirst F delay first Hdelay HF.
  set (self2 := Device.mk (Device.id self) (Device.slot_number self) (Some F) (Some sd)).
  set (self' := Device.mk (Device.id self) (Some slot) (Some F) (Some sd)).
  assert (Hps : Device.process_schedule self pdu
                = Some (self', [Log (A1.ReceivedSchedule (Device.id self) slot);
                                DelayedExec delay A1.send_data_cb])).
  { unfold Device.process_schedule. rewrite Hd.
    change (Device.find_own_slot self2 slots
            = Some (self', [Log (A1.ReceivedSchedule (Device.id self) slot);
                            DelayedExec delay A1.send_data_cb])).
    rewrite (find_own_slot_first self2 sd slot eq_refl i slots Hi Hfirst).
    fold delay. by rewrite (delayed_exec_armed delay _ Hdelay). }
  exists self'. split_and!; try done.
  - unfold A1.on_schedule. rewrite Hps. reflexivity.
  - intros fuel.
    destruct (chain_run self' F eq_refl HF fuel first [])
      as (m & q & Hm & Hrun & Hall & Hend).
    cbn [app] in Hrun. eexists _, m. split; [exact Hrun|].
    cbn [A1.sent A1.queue]. rewrite data_times_of_chain. split_and!; try done.
    + by apply forallb_below_Forall.
    + destruct Hend as [(-> & _) | (-> & -> & _)]; auto.
  - intros m fuel Hall Hle.
    destruct (chain_run self' F eq_refl HF fuel first [])
      as (m0 & q & Hm & Hrun & Hall0 & Hend).
    cbn [app] in Hrun. eexists. split; [exact Hrun|].
    rewrite data_times_of_chain. apply chain_times_prefix.
    destruct Hend as [(_ & Hstop & _) | (_ & -> & _)]; [|done].
    destruct (Nat.le_gt_cases m m0) as [|Hlt]; [done|].
    pose proof (chain_times_below F first m m0 Hall Hlt). congruence.
  - intros m fuel Hall Hstop Hle Hfuel.
    destruct (chain_run self' F eq_refl HF fuel first [])
      as (m0 & q & Hm & Hrun & Hall0 & Hend).
    cbn [app] in Hrun. rewrite Hrun.
    destruct Hend as [(-> & Hstop0 & _) | (_ & -> & Hb)].
    + by rewrite (chain_stop_unique F first m m0 Hall Hstop Hall0 Hstop0).
    + exfalso. destruct (Nat.eq_dec m fuel) as [-> | Hne].
      * rewrite Hb in Hstop by lia. discriminate.
      * assert (Hlt : m < fuel) by lia.
        pose proof (chain_times_below F first fuel m Hall0 Hlt). congruence.
Qed.

Lemma C1_tdma_transmission_times_witness :
  exists s : A1.Sim,
    A1.on_schedule (Device.init 1)
      (BaseStation.sched_pdu (BaseStation.create_schedule (BaseStation.mk 0 [1; 2; 3] []))) 0
    ≫= A1.run_events 166 = Some s
    /\ A1.queue s = []
    /\ length (A1.data_times s) = 166.
Proof.
  destruct (C1_tdma_transmission_times (Device.init 1)
              (BaseStation.sched_pdu (BaseStation.create_schedule (BaseStation.mk 0 [1; 2; 3] [])))
              3 [(1, 0); (2, 1); (3, 2)] 0.5 0 0 0)
    as (self' & _ & _ & _ & Hon & _ & _ & Hstop).
  - reflexivity.
  - reflexivity.
  - intros j e Hj. lia.
  - reflexivity.
  - reflexivity.
  - eexists. rewrite Hon. cbn [mbind option_bind]. split.
    + apply (Hstop 166 166); [vm_compute; reflexivity | vm_compute; reflexivity | lia | lia].
    + cbn [A1.queue]. split; [reflexivity|].
      by rewrite data_times_of_chain, chain_times_length.
Defined.

(** The same run evaluated, at its end: the last two PDUs go out at
    49.69999999999988 and 49.99999999999988. *)
Example a1_run_three_devices :
  (s ← A1.on_schedule (Device.init 1)
         (BaseStation.sched_pdu (BaseStation.create_schedule (BaseStation.mk 0 [1; 2; 3] []))) 0;
   r ← A1.run_events 200 s;
   Some (A1.queue r, drop 164 (A1.data_times r)))
  = Some ([], [49.69999999999988%float; 49.99999999999988%float]).
Proof. vm_compute. reflexivity. Qed.

(** The device in slot 2 of 3, scheduled at time 10, sends 132 PDUs. *)
Example a1_run_slot_2_at_10 :
  (s ← A1.on_schedule (Device.init 3)
         (BaseStation.sched_pdu (BaseStation.create_schedule (BaseStation.mk 0 [1; 2; 3] []))) 10;
   r ← A1.run_events 200 s;
   Some (A1.queue r, length (A1.data_times r), take 3 (A1.data_times r)))
  = Some ([], 132, [10.7%float; 11%float; 11.3%float]).
Proof. vm_compute. reflexivity. Qed.

(** A schedule that arrives too late: the first firing fails the horizon
    check, nothing is sent and nothing is re-armed. *)
Example a1_run_at_49_8 :
  (s ← A1.on_schedule (Device.init 1)
         (BaseStation.sched_pdu (BaseStation.create_schedule (BaseStation.mk 0 [3; 1; 2] []))) 49.8;
   r ← A1.run_events 10 s;
   Some (A1.queue r, A1.sent r))
  = Some ([], []).
Proof. vm_compute. reflexivity. Qed.

(** The SCHED PDU the base station builds after [__init__]: its device
    count is the length of its slot list, so it is positive as soon as one
    device is listed, its slot list pairs the discovered devices with
    0, 1, 2, ..., and its start delay is SCHED_START_DELAY, which is above
    0. *)
Lemma bs_schedule_wellformed (id : nat) (arr1 arr2 : list (PDU Payload)) :
  let r := BaseStation.run (BaseStation.init id) arr1 arr2 in
  let slots := map (fun e : nat * nat => (e.2, e.1))
                   (enumerate (BaseStation.discovered_devices r.1)) in
  pdus_sent r.2
  = [BaseStation.hello_pdu (BaseStation.init id);
     mkPDU 20 id Broadcast "SCHED" (SchedData (length slots) slots A1.SCHED_START_DELAY)]
  /\ PrimFloat.leb A1.SCHED_START_DELAY 0 = false
  /\ (forall d, d ∈ slots.*1 -> 0 < length slots).
Proof.
  intros r slots. destruct (bs_run_sends (BaseStation.init id) arr1 arr2) as [Hs Hsched].
  fold r in Hs, Hsched. specialize (Hsched eq_refl). fold slots in Hsched.
  split_and!.
  - rewrite Hs. unfold BaseStation.sched_pdu. rewrite Hsched. do 2 f_equal.
    subst r. unfold BaseStation.run.
    pose proof (bs_receive_all_frame arr1 (BaseStation.init id, [Timeout 5]))
      as (H1 & _).
    destruct (foldl BaseStation.receive (BaseStation.init id, [Timeout 5]) arr1) as [s1 a1];
      cbn [fst snd] in *.
    match goal with |- context [foldl BaseStation.receive (s1, ?a) arr2] =>
      pose proof (bs_receive_all_frame arr2 (s1, a)) as (G1 & _);
      destruct (foldl BaseStation.receive (s1, a) arr2) as [s2 a3] end; cbn [fst snd] in *.
    assert (Hid : forall l s,
      BaseStation.id (foldl (fun s '(idx, device_id) => BaseStation.schedule_append s (device_id, idx)) s l)
      = BaseStation.id s).
    { induction l as [|[i d] l IHl]; intros s; simpl; [done|]. by rewrite IHl. }
    f_equal. unfold BaseStation.create_schedule. rewrite Hid, G1, H1. reflexivity.
  - reflexivity.
  - intros d Hd. destruct slots; [by apply elem_of_nil in Hd | simpl; lia].
Qed.

(** Three passes of lab06's coordinator in which only nodes 1 and 2 ever
    answer: every pass is made, and the third DISCOVERY lists 3..50. *)
Example lab06_run_three_passes :
  let r := CentralNode.run [([], [hello_from 1]); ([hello_from 2], []); ([], [hello_from 1])]
                     (CentralNode.init 0) in
  CentralNode.rounds r = 3
  /\ CentralNode.stop r = CentralNode.BudgetExhausted
  /\ data <$> CentralNode.broadcasts r
     = [IdsData (seq 1 50); IdsData (seq 2 49); IdsData (seq 3 48)].
Proof. vm_compute. auto. Qed.

(** * Further properties of the code *)

(** ** Order of first arrival *)

Lemma elem_of_first_arrivals (l : list nat) (x : nat) :
  x ∈ first_arrivals l <-> x ∈ l.
Proof.
  unfold first_arrivals. by rewrite elem_of_reverse, elem_of_remove_dups, elem_of_reverse.
Qed.

Lemma NoDup_first_arrivals (l : list nat) : NoDup (first_arrivals l).
Proof. unfold first_arrivals. rewrite reverse_Permutation. apply NoDup_remove_dups. Qed.

Lemma first_arrivals_snoc (l : list nat) (x : nat) :
  first_arrivals (l ++ [x])
  = if bool_decide (x ∈ first_arrivals l) then first_arrivals l
    else first_arrivals l ++ [x].
Proof.
  unfold first_arrivals at 1. rewrite reverse_snoc. cbn [remove_dups].
  destruct (decide_rel elem_of x (reverse l)) as [Hin | Hnot].
  - rewrite bool_decide_eq_true_2; [done|].
    by rewrite elem_of_first_arrivals, <- elem_of_reverse.
  - rewrite bool_decide_eq_false_2.
    + by rewrite reverse_cons.
    + by rewrite elem_of_first_arrivals, <- elem_of_reverse.
Qed.

Lemma sources_of_cons (ty : string) (p : PDU Payload) (arr : list (PDU Payload)) :
  sources_of ty (p :: arr)
  = (if String.eqb (pdu_type p) ty then [src p] else []) ++ sources_of ty arr.
Proof.
  unfold sources_of. destruct (String.eqb_spec (pdu_type p) ty) as [Ht | Ht].
  - by rewrite filter_cons_True.
  - by rewrite filter_cons_False.
Qed.

Lemma sources_of_app (ty : string) (a b : list (PDU Payload)) :
  sources_of ty (a ++ b) = sources_of ty a ++ sources_of ty b.
Proof. unfold sources_of. by rewrite filter_app, fmap_app. Qed.

Lemma elem_of_sources_of (ty : string) (arr : list (PDU Payload)) (d : nat) :
  d ∈ sources_of ty arr <-> exists p, p ∈ arr /\ pdu_type p = ty /\ src p = d.
Proof.
  unfold sources_of. rewrite list_elem_of_fmap. split.
  - intros (p & -> & Hp). apply list_elem_of_filter in Hp as [Ht Hin]. eauto.
  - intros (p & Hin & Ht & <-). exists p. split; [done|].
    apply list_elem_of_filter. auto.
Qed.

(** ** The base station's discovery *)

Lemma bs_receive_discovered (st : BaseStation.t * list A1.Act) (pdu : PDU Payload) :
  BaseStation.discovered_devices (BaseStation.receive st pdu).1
  = if Nat.eqb (BaseStation.id st.1) 0 && String.eqb (pdu_type pdu) "DEV-HELLO"
       && negb (bool_decide (src pdu ∈ BaseStation.discovered_devices st.1))
    then BaseStation.discovered_devices st.1 ++ [src pdu]
    else BaseStation.discovered_devices st.1.
Proof.
  destruct st as [self acts]. unfold BaseStation.receive, A1.CustomMacLayer.on_receive_pdu.
  cbn [fst snd].
  destruct (String.eqb_spec (pdu_type pdu) "DEV-HELLO") as [Ht | Ht].
  - rewrite Ht. cbn [String.eqb Ascii.eqb Bool.eqb andb].
    destruct (Nat.eqb (BaseStation.id self) 0); cbn [andb fst snd].
    + unfold BaseStation.on_receive_pdu. rewrite Ht. cbn [String.eqb Ascii.eqb Bool.eqb andb].
      by destruct (negb _).
    + reflexivity.
  - rewrite andb_false_r. cbn [andb].
    repeat match goal with |- context [if ?b then _ else _] => destruct b eqn:? end;
      cbn [fst snd]; try reflexivity;
      unfold BaseStation.on_receive_pdu;
      apply String.eqb_neq in Ht; rewrite Ht; cbn [andb];
      by destruct (String.eqb (pdu_type pdu) "DATA").
Qed.

Lemma bs_receive_all_discovered (arr : list (PDU Payload))
      (st : BaseStation.t * list A1.Act) (l0 : list nat) :
  BaseStation.discovered_devices st.1 = first_arrivals l0 ->
  BaseStation.discovered_devices (foldl BaseStation.receive st arr).1
  = if Nat.eqb (BaseStation.id st.1) 0
    then first_arrivals (l0 ++ sources_of "DEV-HELLO" arr)
    else first_arrivals l0.
Proof.
  revert st l0. induction arr as [|p arr IH]; intros st l0 H0; cbn [foldl].
  - unfold sources_of. cbn. rewrite app_nil_r. by destruct (Nat.eqb _ 0).
  - destruct (bs_receive_frame st p) as (Hid & _).
    pose proof (bs_receive_discovered st p) as Hd.
    destruct (Nat.eqb (BaseStation.id st.1) 0) eqn:Hz; cbn [andb] in Hd.
    + rewrite (IH _ (l0 ++ (if String.eqb (pdu_type p) "DEV-HELLO" then [src p] else []))).
      * rewrite Hid, Hz, sources_of_cons. by rewrite <- app_assoc.
      * rewrite Hd, H0. destruct (String.eqb (pdu_type p) "DEV-HELLO"); cbn [andb].
        -- rewrite first_arrivals_snoc.
           by destruct (bool_decide (src p ∈ first_arrivals l0)).
        -- by rewrite app_nil_r.
    + rewrite (IH _ l0); [by rewrite Hid, Hz | by rewrite Hd].
Qed.

Lemma create_schedule_frame (self : BaseStation.t) :
  BaseStation.discovered_devices (BaseStation.create_schedule self)
  = BaseStation.discovered_devices self
  /\ BaseStation.id (BaseStation.create_schedule self) = BaseStation.id self.
Proof.
  unfold BaseStation.create_schedule.
  generalize (enumerate (BaseStation.discovered_devices self)). intros l.
  revert self. induction l as [|[i d] l IH]; intros self; [done|].
  cbn [foldl]. destruct (IH (BaseStation.schedule_append self (d, i))) as [H1 H2].
  by rewrite H1, H2.
Qed.

Lemma bs_run_id (self : BaseStation.t) (arr1 arr2 : list (PDU Payload)) :
  BaseStation.id (BaseStation.run self arr1 arr2).1 = BaseStation.id self.
Proof.
  unfold BaseStation.run.
  pose proof (bs_receive_all_frame arr1 (self, [Timeout 5])) as (I1 & _).
  destruct (foldl BaseStation.receive (self, [Timeout 5]) arr1) as [s1 a1].
  match goal with |- context [foldl BaseStation.receive (s1, ?a) arr2] =>
    pose proof (bs_receive_all_frame arr2 (s1, a)) as (I2 & _);
    destruct (foldl BaseStation.receive (s1, a) arr2) as [s2 a3] end.
  cbn [fst snd] in *. destruct (create_schedule_frame s2) as [_ ->].
  by rewrite I2, I1.
Qed.

Lemma bs_run_discovered (id : nat) (arr1 arr2 : list (PDU Payload)) :
  BaseStation.discovered_devices (BaseStation.run (BaseStation.init id) arr1 arr2).1
  = if Nat.eqb id 0 then first_arrivals (sources_of "DEV-HELLO" (arr1 ++ arr2)) else [].
Proof.
  unfold BaseStation.run.
  pose proof (bs_receive_all_discovered arr1 (BaseStation.init id, [Timeout 5]) [] eq_refl)
    as H1.
  pose proof (bs_receive_all_frame arr1 (BaseStation.init id, [Timeout 5])) as (I1 & _).
  destruct (foldl BaseStation.receive (BaseStation.init id, [Timeout 5]) arr1) as [s1 a1].
  cbn [fst snd app BaseStation.id BaseStation.init] in *.
  match goal with |- context [foldl BaseStation.receive (s1, ?a) arr2] =>
    pose proof (fun l0 => bs_receive_all_discovered arr2 (s1, a) l0) as H2;
    destruct (foldl BaseStation.receive (s1, a) arr2) as [s2 a3] end.
  cbn [fst snd] in *.
  destruct (create_schedule_frame s2) as [-> _].
  rewrite I1 in H2. destruct (Nat.eqb id 0).
  - rewrite (H2 _ H1). by rewrite sources_of_app.
  - by rewrite (H2 [] H1).
Qed.

(** X1. The base station with id 0 (the first node added) ends its run
    with [discovered_devices] equal to the sources of the DEV-HELLO PDUs
    that reached it during its two waits, each once, in the order of their
    first arrival; the schedule it broadcasts pairs the i-th of them with
    slot i and counts them. No device is listed twice. *)
Theorem X1_discovery_in_arrival_order (arr1 arr2 : list (PDU Payload)) :
  let r := BaseStation.run (BaseStation.init 0) arr1 arr2 in
  let ds := first_arrivals (sources_of "DEV-HELLO" (arr1 ++ arr2)) in
  BaseStation.discovered_devices r.1 = ds
  /\ NoDup (BaseStation.schedule r.1).*1
  /\ (forall i d, ds !! i = Some d -> BaseStation.schedule r.1 !! i = Some (d, i))
  /\ pdus_sent r.2
     = [BaseStation.hello_pdu (BaseStation.init 0);
        mkPDU 20 0 Broadcast "SCHED"
              (SchedData (length ds) (BaseStation.schedule r.1) A1.SCHED_START_DELAY)]
  /\ (forall d, d ∈ ds <->
        exists p, p ∈ arr1 ++ arr2 /\ pdu_type p = "DEV-HELLO" /\ src p = d).
Proof.
  intros r ds.
  pose proof (bs_run_discovered 0 arr1 arr2) as Hd. cbn [Nat.eqb] in Hd. fold r ds in Hd.
  destruct (bs_run_sends (BaseStation.init 0) arr1 arr2) as [Hs Hsched].
  fold r in Hs, Hsched. specialize (Hsched eq_refl). rewrite Hd in Hsched.
  assert (Hids : (BaseStation.schedule r.1).*1 = ds).
  { rewrite Hsched. unfold enumerate. by rewrite swapped_fst, enumerate_from_snd. }
  assert (Hbs : BaseStation.id r.1 = 0) by apply bs_run_id.
  split_and!.
  - exact Hd.
  - rewrite Hids. apply NoDup_first_arrivals.
  - intros i d Hi. rewrite Hsched, list_lookup_fmap. unfold enumerate.
    by rewrite (enumerate_from_lookup ds 0 i d Hi).
  - rewrite Hs. unfold BaseStation.sched_pdu. rewrite Hbs. do 3 f_equal.
    by rewrite <- Hids, length_fmap.
  - intros d. unfold ds. by rewrite elem_of_first_arrivals, elem_of_sources_of.
Qed.

(** X2. A base station whose id is not 0 discovers nobody, whatever
    arrives: its MAC layer drops every DEV-HELLO, so its schedule is empty
    and the SCHED PDU it broadcasts counts 0 devices. *)
Theorem X2_base_station_must_be_node_0 (id : nat) (arr1 arr2 : list (PDU Payload)) :
  id <> 0 ->
  let r := BaseStation.run (BaseStation.init id) arr1 arr2 in
  BaseStation.discovered_devices r.1 = []
  /\ BaseStation.schedule r.1 = []
  /\ pdus_sent r.2
     = [mkPDU 20 id Broadcast "BS-HELLO" NoData;
        mkPDU 20 id Broadcast "SCHED" (SchedData 0 [] A1.SCHED_START_DELAY)].
Proof.
  intros Hid r.
  pose proof (bs_run_discovered id arr1 arr2) as Hd. fold r in Hd.
  apply Nat.eqb_neq in Hid. rewrite Hid in Hd.
  destruct (bs_run_sends (BaseStation.init id) arr1 arr2) as [Hs Hsched].
  fold r in Hs, Hsched. specialize (Hsched eq_refl). rewrite Hd in Hsched.
  cbn in Hsched.
  assert (Hbs : BaseStation.id r.1 = id) by apply bs_run_id.
  split_and!; [done | done |].
  rewrite Hs. unfold BaseStation.sched_pdu, BaseStation.hello_pdu.
  by rewrite Hbs, Hsched.
Qed.

Lemma X2_base_station_must_be_node_0_witness :
  BaseStation.discovered_devices
    (BaseStation.run (BaseStation.init 1)
       [] [mkPDU 20 2 (NodeId 0) "DEV-HELLO" (IdData 2)]).1 = [].
Proof.
  destruct (X2_base_station_must_be_node_0 1
              [] [mkPDU 20 2 (NodeId 0) "DEV-HELLO" (IdData 2)]) as (H & _).
  - discriminate.
  - exact H.
Defined.

(** ** The coordinator's lists in terms of what arrived *)

Lemma cn_receive_discovered (st : CentralNode.t * list Lab06.Act) (pdu : PDU Payload) :
  CentralNode.discovered_ids (CentralNode.receive st pdu).1
  = if String.eqb (pdu_type pdu) "HELLO"
       && negb (bool_decide (src pdu ∈ CentralNode.discovered_ids st.1))
    then CentralNode.discovered_ids st.1 ++ [src pdu]
    else CentralNode.discovered_ids st.1.
Proof.
  destruct st as [self acts].
  unfold CentralNode.receive, Lab06.CustomMacLayer.on_receive_pdu. cbn [fst snd].
  case_bool_decide as Hty.
  - unfold CentralNode.on_receive_pdu. by destruct (_ && _).
  - cbn [fst snd]. destruct (String.eqb_spec (pdu_type pdu) "HELLO") as [Ht | Ht]; [|done].
    exfalso. apply Hty. rewrite Ht. set_solver.
Qed.

Lemma cn_receive_all_discovered (arr : list (PDU Payload))
      (st : CentralNode.t * list Lab06.Act) (l0 : list nat) :
  CentralNode.discovered_ids st.1 = first_arrivals l0 ->
  CentralNode.discovered_ids (foldl CentralNode.receive st arr).1
  = first_arrivals (l0 ++ sources_of "HELLO" arr).
Proof.
  revert st l0. induction arr as [|p arr IH]; intros st l0 H0; cbn [foldl].
  - unfold sources_of. cbn. by rewrite app_nil_r.
  - rewrite (IH _ (l0 ++ (if String.eqb (pdu_type p) "HELLO" then [src p] else []))).
    + by rewrite sources_of_cons, <- app_assoc.
    + rewrite cn_receive_discovered, H0.
      destruct (String.eqb (pdu_type p) "HELLO"); cbn [andb].
      * rewrite first_arrivals_snoc.
        by destruct (bool_decide (src p ∈ first_arrivals l0)).
      * by rewrite app_nil_r.
Qed.

Lemma discovery_round_discovered (self : CentralNode.t) (arr1 arr2 : list (PDU Payload))
      (l0 : list nat) :
  CentralNode.discovered_ids self = first_arrivals l0 ->
  CentralNode.discovered_ids (CentralNode.discovery_round self arr1 arr2).1
  = first_arrivals (l0 ++ sources_of "HELLO" (arr1 ++ arr2)).
Proof.
  intros H0. unfold CentralNode.discovery_round.
  pose proof (cn_receive_all_discovered arr1
                (self, [Timeout Lab06.DISCOVERY_DURATION]) l0 H0) as H1.
  destruct (foldl CentralNode.receive (self, [Timeout Lab06.DISCOVERY_DURATION]) arr1)
    as [s1 a1]. cbn [fst snd] in H1.
  match goal with |- context [foldl CentralNode.receive (s1, ?a) arr2] =>
    pose proof (cn_receive_all_discovered arr2 (s1, a) _ H1) as H2;
    destruct (foldl CentralNode.receive (s1, a) arr2) as [s2 a3] end.
  cbn [fst snd CentralNode.update_missing CentralNode.discovered_ids] in *.
  by rewrite H2, sources_of_app, app_assoc.
Qed.

Lemma all_arrivals_snoc (env : list (list (PDU Payload) * list (PDU Payload)))
      (arr : list (PDU Payload) * list (PDU Payload)) :
  all_arrivals (env ++ [arr]) = all_arrivals env ++ (arr.1 ++ arr.2).
Proof.
  unfold all_arrivals. rewrite fmap_app, concat_app. cbn. by rewrite app_nil_r.
Qed.

Lemma all_arrivals_app (env env' : list (list (PDU Payload) * list (PDU Payload))) :
  all_arrivals (env ++ env') = all_arrivals env ++ all_arrivals env'.
Proof. unfold all_arrivals. by rewrite fmap_app, concat_app. Qed.

Lemma node_after_discovered (id : nat)
      (env : list (list (PDU Payload) * list (PDU Payload))) :
  CentralNode.discovered_ids (CentralNode.node_after env (CentralNode.init id))
  = first_arrivals (sources_of "HELLO" (all_arrivals env)).
Proof.
  induction env as [|arr env IH] using rev_ind; [done|].
  rewrite node_after_snoc, (discovery_round_discovered _ _ _ _ IH).
  by rewrite all_arrivals_snoc, (sources_of_app _ (all_arrivals env)).
Qed.

Lemma node_after_missing (id : nat)
      (env : list (list (PDU Payload) * list (PDU Payload))) (d : nat) :
  d ∈ CentralNode.missing_ids (CentralNode.node_after env (CentralNode.init id))
  <-> d ∈ Lab06.all_ids /\ d ∉ sources_of "HELLO" (all_arrivals env).
Proof.
  destruct env as [|arr env _] using rev_ind.
  - cbn. split; [intros H; split; [done | apply not_elem_of_nil] | by intros [H _]].
  - rewrite <- (elem_of_first_arrivals (sources_of "HELLO" (all_arrivals (env ++ [arr])))).
    rewrite <- (node_after_discovered id (env ++ [arr])), node_after_snoc.
    destruct (discovery_round_spec
                (CentralNode.node_after env (CentralNode.init id)) arr.1 arr.2)
      as (_ & _ & Hm & _).
    rewrite Hm, list_elem_of_filter. tauto.
Qed.

(** X3. However many passes of the coordinator's loop have completed since
    [__init__], [discovered_ids] holds the sources of the HELLO PDUs
    delivered so far, each once, in the order of their first arrival, and
    [missing_ids] holds exactly the ids of 1..NUM_DEVICES from which no
    HELLO has been delivered. *)
Theorem X3_coordinator_lists_from_arrivals (id : nat)
        (env : list (list (PDU Payload) * list (PDU Payload))) :
  let c := CentralNode.node_after env (CentralNode.init id) in
  CentralNode.discovered_ids c = first_arrivals (sources_of "HELLO" (all_arrivals env))
  /\ NoDup (CentralNode.discovered_ids c)
  /\ NoDup (CentralNode.missing_ids c)
  /\ (forall d, d ∈ CentralNode.missing_ids c <->
        1 <= d <= Lab06.NUM_DEVICES
        /\ forall p, p ∈ all_arrivals env -> pdu_type p = "HELLO" -> src p <> d).
Proof.
  intros c. split_and!.
  - apply node_after_discovered.
  - unfold c. rewrite node_after_discovered. apply NoDup_first_arrivals.
  - unfold c. destruct env as [|arr env _] using rev_ind.
    + apply NoDup_ListNoDup, List.seq_NoDup.
    + rewrite node_after_snoc.
      destruct (discovery_round_spec
                  (CentralNode.node_after env (CentralNode.init id)) arr.1 arr.2)
        as (_ & _ & Hm & _).
      rewrite Hm. apply NoDup_filter, NoDup_ListNoDup, List.seq_NoDup.
  - intros d. unfold c. rewrite node_after_missing, all_ids_range, elem_of_sources_of.
    split; intros [Hr Hn]; (split; [exact Hr|]).
    + intros p Hp Ht Hs. apply Hn. eauto.
    + intros (p & Hp & Ht & Hs). by apply (Hn p).
Qed.

(** X4. As passes complete, [missing_ids] only loses elements and
    [discovered_ids] only gains them at its end: the ids listed by a later
    DISCOVERY are among those listed by an earlier one. *)
Theorem X4_missing_shrinks (id : nat)
        (env env' : list (list (PDU Payload) * list (PDU Payload))) :
  let c := CentralNode.node_after env (CentralNode.init id) in
  let c' := CentralNode.node_after (env ++ env') (CentralNode.init id) in
  CentralNode.missing_ids c' ⊆ CentralNode.missing_ids c
  /\ CentralNode.discovered_ids c `prefix_of` CentralNode.discovered_ids c'
  /\ data (CentralNode.discovery_pdu c') = IdsData (CentralNode.missing_ids c').
Proof.
  intros c c'. split_and!.
  - intros d. unfold c, c'. rewrite !node_after_missing, all_arrivals_app, sources_of_app.
    intros [Hr Hn]. split; [exact Hr|]. intros Hin. apply Hn.
    rewrite elem_of_app. auto.
  - unfold c, c'. rewrite !node_after_discovered, all_arrivals_app, sources_of_app.
    generalize (sources_of "HELLO" (all_arrivals env)) as l.
    generalize (sources_of "HELLO" (all_arrivals env')) as l'.
    intros l' l. induction l' as [|x l' IH] using rev_ind.
    + by rewrite app_nil_r.
    + rewrite app_assoc, first_arrivals_snoc.
      destruct (bool_decide _); [exact IH | by apply prefix_app_r].
  - reflexivity.
Qed.

(** ** When the coordinator's loop converges *)

Lemma missing_empty_iff (id : nat)
      (env : list (list (PDU Payload) * list (PDU Payload))) (j : nat) :
  CentralNode.missing_ids (CentralNode.node_after (take j env) (CentralNode.init id)) = []
  <-> all_answered env j.
Proof.
  unfold all_answered. split.
  - intros Hm d Hd.
    destruct (decide (d ∈ sources_of "HELLO" (all_arrivals (take j env)))) as [|Hn];
      [done|].
    assert (Hin : d ∈ CentralNode.missing_ids
                    (CentralNode.node_after (take j env) (CentralNode.init id))).
    { apply node_after_missing. split; [by apply all_ids_range | done]. }
    rewrite Hm in Hin. by apply elem_of_nil in Hin.
  - intros Hall.
    destruct (CentralNode.missing_ids
                (CentralNode.node_after (take j env) (CentralNode.init id)))
      as [|d l] eqn:Hm; [done|].
    assert (Hin : d ∈ CentralNode.missing_ids
                    (CentralNode.node_after (take j env) (CentralNode.init id))).
    { rewrite Hm. apply list_elem_of_here. }
    apply node_after_missing in Hin as [Hr Hn].
    exfalso. apply Hn, Hall. by apply all_ids_range.
Qed.

Lemma all_answered_mono (env : list (list (PDU Payload) * list (PDU Payload)))
      (j k : nat) :
  j <= k -> all_answered env j -> all_answered env k.
Proof.
  intros Hjk Hj d Hd. specialize (Hj d Hd).
  replace k with (j + (k - j)) by lia.
  rewrite <- take_take_drop, all_arrivals_app, sources_of_app, elem_of_app. auto.
Qed.

(** X5. Started from [__init__], [run] ends with the loop condition false
    exactly when the environment leaves time for a number of passes by
    which every id of 1..NUM_DEVICES has had a HELLO delivered; it then has
    made the least such number of passes, at least one, and every id is
    in [discovered_ids]. Until then each pass leaves some id unanswered. *)
Theorem X5_convergence_from_arrivals (id : nat)
        (env : list (list (PDU Payload) * list (PDU Payload))) :
  let r := CentralNode.run env (CentralNode.init id) in
  (CentralNode.stop r = CentralNode.Converged <->
     exists j, j <= length env /\ all_answered env j)
  /\ (CentralNode.stop r = CentralNode.Converged ->
        1 <= CentralNode.rounds r
        /\ all_answered env (CentralNode.rounds r)
        /\ forall d, 1 <= d <= Lab06.NUM_DEVICES ->
                     d ∈ CentralNode.discovered_ids (CentralNode.final r))
  /\ (forall j, j < CentralNode.rounds r -> ~ all_answered env j).
Proof.
  intros r. pose proof (run_spec env (CentralNode.init id)) as H.
  cbn zeta beta in H. fold r in H.
  destruct H as (H1 & H2 & H3 & H4 & H5 & H6 & H7).
  assert (Hconv : CentralNode.stop r = CentralNode.Converged ->
                  all_answered env (CentralNode.rounds r)).
  { intros Hc. apply (missing_empty_iff id). rewrite <- H2. by apply H5. }
  assert (Hlt : forall j, j < CentralNode.rounds r -> ~ all_answered env j).
  { intros j Hj Ha. apply (missing_empty_iff id) in Ha. by destruct (H4 j Hj). }
  split_and!.
  - split.
    + intros Hc. exists (CentralNode.rounds r). auto.
    + intros (j & Hj & Ha).
      destruct (CentralNode.stop r) eqn:Hs; [done|]. exfalso.
      destruct (proj1 H6 eq_refl) as [Hr Hne]. apply Hne.
      rewrite H2, Hr. apply missing_empty_iff.
      by apply (all_answered_mono env j (length env)).
  - intros Hc. split_and!.
    + destruct (CentralNode.rounds r) eqn:Hr; [|lia]. exfalso.
      specialize (Hconv Hc).
      specialize (Hconv 1 ltac:(unfold Lab06.NUM_DEVICES; lia)).
      cbn in Hconv. by apply elem_of_nil in Hconv.
    + by apply Hconv.
    + intros d Hd. rewrite H2, node_after_discovered, elem_of_first_arrivals.
      by apply (Hconv Hc).
  - exact Hlt.
Qed.

(** ** What a device of a1.py reacts to *)




(** X7. What a device sends reaches the base station (node 0): the PDU of
    [send_hello] passes the station's MAC layer and puts the device's id
    in [discovered_devices], where a second copy changes nothing; the PDU
    of [send_data] passes too and is logged, without any change of the
    station. Both are addressed to node 0. *)
Theorem X7_device_pdus_reach_base_station (dev : Device.t) (bs : BaseStation.t)
        (acts : list A1.Act) :
  BaseStation.id bs = 0 ->
  let hello := mkPDU 20 (Device.id dev) (NodeId 0) "DEV-HELLO" (IdData (Device.id dev)) in
  let st := BaseStation.receive (bs, acts) hello in
  pdus_sent (Device.send_hello dev) = [hello]
  /\ Device.id dev ∈ BaseStation.discovered_devices st.1
  /\ BaseStation.discovered_devices (BaseStation.receive st hello).1
     = BaseStation.discovered_devices st.1
  /\ dest (Device.data_pdu dev) = NodeId 0
  /\ BaseStation.receive (bs, acts) (Device.data_pdu dev)
     = (bs, acts ++ [Log (A1.MacReceived (Device.id dev) "DATA");
                     Log (A1.BsReceivedData 0 (Device.id dev))]).
Proof.
  intros Hid hello st.
  assert (Hst : BaseStation.discovered_devices st.1
                = if bool_decide (Device.id dev ∈ BaseStation.discovered_devices bs)
                  then BaseStation.discovered_devices bs
                  else BaseStation.discovered_devices bs ++ [Device.id dev]).
  { unfold st. rewrite bs_receive_discovered. cbn [fst]. rewrite Hid. cbn.
    by destruct (bool_decide _). }
  assert (Hin : Device.id dev ∈ BaseStation.discovered_devices st.1).
  { rewrite Hst. case_bool_decide; [done|]. rewrite elem_of_app, list_elem_of_singleton. auto. }
  split_and!.
  - reflexivity.
  - exact Hin.
  - rewrite bs_receive_discovered.
    change (src hello) with (Device.id dev).
    rewrite (bool_decide_eq_true_2 _ Hin). cbn [negb]. by rewrite andb_false_r.
  - reflexivity.
  - unfold BaseStation.receive, A1.CustomMacLayer.on_receive_pdu. rewrite Hid. cbn.
    by rewrite Hid.
Qed.

Lemma X7_device_pdus_reach_base_station_witness :
  6 ∈ BaseStation.discovered_devices
        (BaseStation.receive (BaseStation.init 0, [])
           (mkPDU 20 6 (NodeId 0) "DEV-HELLO" (IdData 6))).1.
Proof.
  destruct (X7_device_pdus_reach_base_station (Device.init 6) (BaseStation.init 0) [])
    as (_ & H & _).
  - reflexivity.
  - exact H.
Defined.

(** ** Delays that the simulator refuses *)

(** X9. A device handed a SCHED PDU that lists it raises, instead of
    transmitting, when a delay it passes to [sim.delayed_exec] is not above
    0. If the first delay [start_delay + slot * SLOT_DURATION] is 0 or less
    (a start delay of 0 in slot 0), [process_schedule] raises and no timer
    is armed. If the frame length [num_devices * SLOT_DURATION] is 0 or less
    (no device counted) while the first firing and the one after it are
    below the horizon, the first firing raises when it re-arms the timer. *)
Theorem X9_zero_delay_raises (self : Device.t) (pdu : PDU Payload)
        (n : nat) (slots : list (nat * nat)) (sd t0 : float) (i slot : nat) :
  data pdu = SchedData n slots sd ->
  slots !! i = Some (Device.id self, slot) ->
  (forall j e, j < i -> slots !! j = Some e -> e.1 <> Device.id self) ->
  let F := (float_of_nat n * A1.SLOT_DURATION)%float in
  let delay := (sd + float_of_nat slot * A1.SLOT_DURATION)%float in
  let first := (t0 + delay)%float in
  (PrimFloat.leb delay 0 = true ->
     Device.process_schedule self pdu = None
     /\ A1.on_schedule self pdu t0 = None)
  /\ (PrimFloat.leb delay 0 = false ->
      PrimFloat.leb F 0 = true ->
      below_horizon first = true ->
      below_horizon (first + F) = true ->
      forall fuel : nat,
        1 <= fuel -> A1.on_schedule self pdu t0 ≫= A1.run_events fuel = None).
Proof.
  intros Hd Hi Hfirst F delay first.
  set (self2 := Device.mk (Device.id self) (Device.slot_number self) (Some F) (Some sd)).
  assert (Hps : Device.process_schedule self pdu
                = timer ← delayed_exec delay A1.send_data_cb;
                  Some (Device.mk (Device.id self) (Some slot) (Some F) (Some sd),
                        Log (A1.ReceivedSchedule (Device.id self) slot) :: timer)).
  { unfold Device.process_schedule. rewrite Hd.
    exact (find_own_slot_first self2 sd slot eq_refl i slots Hi Hfirst). }
  split.
  - intros Hneg. rewrite (delayed_exec_raises delay _ Hneg) in Hps.
    split; [exact Hps|]. unfold A1.on_schedule. by rewrite Hps.
  - intros Hpos HF Hb Hn fuel Hfuel.
    rewrite (delayed_exec_armed delay _ Hpos) in Hps. cbn [mbind option_bind] in Hps.
    unfold A1.on_schedule. rewrite Hps. cbn [mbind option_bind].
    destruct fuel as [|fuel]; [lia|].
    change (A1.arm t0 [] _) with [(first, A1.send_data_cb)].
    cbn [A1.run_events A1.queue A1.dev A1.run_callback].
    by rewrite (send_data_raises
                  (Device.mk (Device.id self) (Some slot) (Some F) (Some sd))
                  first F eq_refl HF Hb Hn).
Qed.

Lemma X9_zero_delay_raises_witness :
  Device.process_schedule (Device.init 1)
    (mkPDU 20 0 Broadcast "SCHED" (SchedData 3 [(1, 0); (2, 1); (3, 2)] 0)) = None
  /\ (A1.on_schedule (Device.init 1)
        (mkPDU 20 0 Broadcast "SCHED" (SchedData 0 [(1, 0)] 0.5)) 10
      ≫= A1.run_events 5) = None.
Proof.
  split.
  - destruct (X9_zero_delay_raises (Device.init 1)
                (mkPDU 20 0 Broadcast "SCHED" (SchedData 3 [(1, 0); (2, 1); (3, 2)] 0))
                3 [(1, 0); (2, 1); (3, 2)] 0 0 0 0) as [H _].
    + reflexivity.
    + reflexivity.
    + intros j e Hj. lia.
    + apply H. reflexivity.
  - destruct (X9_zero_delay_raises (Device.init 1)
                (mkPDU 20 0 Broadcast "SCHED" (SchedData 0 [(1, 0)] 0.5))
                0 [(1, 0)] 0.5 10 0 0) as [_ H].
    + reflexivity.
    + reflexivity.
    + intros j e Hj. lia.
    + apply H; [reflexivity | reflexivity | reflexivity | reflexivity | lia].
Defined.

(** ** A regular node of lab06.py *)

(** X10. A regular node answers its first DISCOVERY without looking at the
    payload: whatever the payload is, or if there is none, it arms its one
    [send_hello] timer, unless the jitter drawn is 0 (or less), which makes
    [sim.delayed_exec] raise. Once it has responded the payload decides: a
    list is searched for the id, and the node answers as before if it is
    listed and only logs the request if it is not; a dict never contains
    the id, so no timer is armed; a missing payload, a number or a string
    makes the membership test raise. *)
Theorem X10_discovery_payload_edges (self : RegularNode.t) (pdu : PDU Payload) (u : float) :
  pdu_type pdu = "DISCOVERY" ->
  let delay := uniform 0 Lab06.HELLO_TIMEOUT u in
  let received := Log (Lab06.RnReceivedDiscovery (RegularNode.id self) (src pdu)) in
  let answer :=
    if PrimFloat.leb delay 0 then None
    else Some (RegularNode.mk (RegularNode.id self) (RegularNode.received_discovery self) true,
               [received; Log (Lab06.SchedulingHello (RegularNode.id self) delay);
                DelayedExec delay Lab06.send_hello_cb]) in
  (RegularNode.responded self = false -> RegularNode.on_receive_pdu self pdu u = answer)
  /\ (RegularNode.responded self = true ->
        match data pdu with
        | IdsData ids =>
            RegularNode.on_receive_pdu self pdu u
            = if bool_decide (RegularNode.id self ∈ ids) then answer
              else Some (self, [received])
        | SchedData _ _ _ => RegularNode.on_receive_pdu self pdu u = Some (self, [received])
        | NoData | IdData _ | StrData _ => RegularNode.on_receive_pdu self pdu u = None
        end).
Proof.
  intros Ht delay received answer. unfold RegularNode.on_receive_pdu. rewrite Ht.
  cbn [String.eqb Ascii.eqb Bool.eqb]. cbv zeta. fold delay.
  split; intros Hr; rewrite Hr; cbn [negb mbind option_bind].
  - unfold answer, delayed_exec. by destruct (PrimFloat.leb delay 0).
  - destruct (data pdu) as [| n sl sd | i | str | ids]; cbn; try reflexivity.
    case_bool_decide as Hin; cbn; [|reflexivity].
    unfold answer, delayed_exec. by destruct (PrimFloat.leb delay 0).
Qed.

Lemma X10_discovery_payload_edges_witness :
  RegularNode.on_receive_pdu (RegularNode.mk 4 false true)
    (mkPDU 20 0 Broadcast "DISCOVERY" (StrData "all")) 0.5 = None.
Proof.
  destruct (X10_discovery_payload_edges (RegularNode.mk 4 false true)
              (mkPDU 20 0 Broadcast "DISCOVERY" (StrData "all")) 0.5) as [_ H].
  - reflexivity.
  - apply H. reflexivity.
Defined.

Lemma rn_on_receive_pdu_frame (self self' : RegularNode.t) (pdu : PDU Payload) (u : float)
      (acts : list Lab06.Act) :
  RegularNode.on_receive_pdu self pdu u = Some (self', acts) ->
  RegularNode.received_discovery self' = RegularNode.received_discovery self
  /\ pdus_sent acts = []
  /\ (pdu_type pdu <> "DISCOVERY" -> self' = self /\ acts = []).
Proof.
  unfold RegularNode.on_receive_pdu, delayed_exec.
  destruct (String.eqb_spec (pdu_type pdu) "DISCOVERY") as [Ht | Ht].
  - destruct (negb (RegularNode.responded self)); cbn.
    + destruct (PrimFloat.leb _ _); cbn; intros [= <- <-]. done.
    + destruct (RegularNode.id_in_data _ _) as [[|]|]; cbn;
        [destruct (PrimFloat.leb _ _); cbn | |]; intros [= <- <-]; done.
  - intros [= <- <-]. done.
Qed.

(** X11. Over any history of PDUs that a regular node handles without
    raising, its id and its [received_discovery] flag never change (the
    flag is never set), [responded] is never reset once set, the handler
    never sends a PDU itself, and if no PDU of the history is a DISCOVERY
    (HELLOs of other nodes, say, which the MAC layer does hand to it) the
    node ends as it began. *)
Theorem X11_regular_node_frame (h : list (PDU Payload * float)) (self self' : RegularNode.t) :
  RegularNode.handle_all self h = Some self' ->
  RegularNode.id self' = RegularNode.id self
  /\ RegularNode.received_discovery self' = RegularNode.received_discovery self
  /\ (RegularNode.responded self = true -> RegularNode.responded self' = true)
  /\ ((forall q, q ∈ h.*1 -> pdu_type q <> "DISCOVERY") -> self' = self)
  /\ (forall s q u s' acts,
        RegularNode.on_receive_pdu s q u = Some (s', acts) -> pdus_sent acts = []).
Proof.
  revert self. induction h as [|[pdu u] h IH]; intros self Hh; cbn in Hh.
  - injection Hh as <-. split_and!; try done. intros s q u s' acts Hs.
    by destruct (rn_on_receive_pdu_frame _ _ _ _ _ Hs) as (_ & ? & _).
  - destruct (RegularNode.on_receive_pdu self pdu u) as [[s1 acts]|] eqn:H1; [|done].
    cbn in Hh. destruct (IH _ Hh) as (I1 & I2 & I3 & I4 & I5).
    destruct (rn_on_receive_pdu_responded _ _ _ _ _ H1) as [G1 G2].
    destruct (rn_on_receive_pdu_frame _ _ _ _ _ H1) as (G3 & G4 & G5).
    split_and!.
    + congruence.
    + congruence.
    + intros Hr. apply I3. rewrite G2, Hr. reflexivity.
    + intros Hno.
      destruct G5 as [-> _].
      { apply Hno. rewrite fmap_cons. apply list_elem_of_here. }
      apply I4. intros q Hq. apply Hno. rewrite fmap_cons. by apply list_elem_of_further.
    + exact I5.
Qed.

Lemma X11_regular_node_frame_witness :
  RegularNode.id (RegularNode.mk 4 false true) = 4
  /\ RegularNode.received_discovery (RegularNode.mk 4 false true) = false.
Proof.
  destruct (X11_regular_node_frame
              [(hello_from 9, 0.5%float);
               (mkPDU 20 0 Broadcast "DISCOVERY" (IdsData [4]), 0.25%float)]
              (RegularNode.init 4) (RegularNode.mk 4 false true)) as (H1 & H2 & _).
  - reflexivity.
  - split; [exact H1 | exact H2].
Defined.

(** ** lab03.py: transmitters with random backoff *)

Lemma lab03_run_loop_spec (draws : nat -> float) :
  (forall k, PrimFloat.ltb (1 + uniform 0 1 (draws k)) 0 = false) ->
  forall (fuel : nat) (now : float) (k : nat) (self : Lab03.MyNode.t),
    let pdu := Lab03.mkPDU 20 ("MyData_from_Node_" +:+ pretty (Lab03.MyNode.id self))
                           (Lab03.MyNode.id self) in
    exists (self' : Lab03.MyNode.t) (trace : list (float * Lab03.Event))
           (done : bool) (m : nat),
      Lab03.MyNode.run_loop fuel now draws k self = Some (self', trace, done)
      /\ m <= fuel
      /\ Lab03.MyNode.id self' = Lab03.MyNode.id self
      /\ Lab03.MyNode.seq_num self' = Lab03.MyNode.seq_num self + m
      /\ Lab03.sends trace
         = map (fun t => (t, pdu)) (Lab03.MyNode.wake_times now draws k m)
      /\ forallb (fun t => PrimFloat.ltb t Lab03.UNTIL)
                 (Lab03.MyNode.wake_times now draws k m) = true
      /\ (done = true ->
            forallb (fun t => PrimFloat.ltb t Lab03.UNTIL)
                    (Lab03.MyNode.wake_times now draws k (S m)) = false)
      /\ (done = false -> m = fuel).
Proof.
  intros Hdraws. induction fuel as [|fuel IH]; intros now k self pdu.
  - exists self, [], false, 0. cbn. split_and!; try done; lia.
  - cbn [Lab03.MyNode.run_loop]. cbv zeta. rewrite (Hdraws k).
    set (wake := (now + (1 + uniform 0 1 (draws k)))%float).
    destruct (PrimFloat.ltb wake Lab03.UNTIL) eqn:Hlt.
    + unfold Lab03.MyNode.transmit.
      destruct (IH wake (S k)
                  (Lab03.MyNode.mk (Lab03.MyNode.id self) (Lab03.MyNode.pos self)
                     (Lab03.MyNode.tx_range self) (Lab03.MyNode.seq_num self + 1)))
        as (self' & trace & done & m & Hrun & Hm & Hid & Hseq & Hs & Hall & Hdone & Hfuel).
      cbn [Lab03.MyNode.id Lab03.MyNode.seq_num] in *.
      rewrite Hrun. cbn [mbind option_bind].
      exists self', ((wake, Lab03.SendPdu pdu) :: (wake, Lab03.LogSent (Lab03.MyNode.id self)
                                                      (Lab03.data pdu)) :: trace),
             done, (S m).
      split; [reflexivity|]. split_and!.
      * lia.
      * exact Hid.
      * rewrite Hseq. lia.
      * cbn [Lab03.MyNode.wake_times map]. fold wake.
        change (Lab03.sends ((wake, Lab03.SendPdu pdu) :: ?l))
          with ((wake, pdu) :: Lab03.sends l).
        change (Lab03.sends ((wake, Lab03.LogSent ?a ?b) :: ?l)) with (Lab03.sends l).
        by rewrite Hs.
      * cbn [Lab03.MyNode.wake_times forallb]. fold wake. by rewrite Hlt, Hall.
      * intros Hd. specialize (Hdone Hd).
        change (Lab03.MyNode.wake_times now draws k (S (S m)))
          with (wake :: Lab03.MyNode.wake_times wake draws (S k) (S m)).
        cbn [forallb]. by rewrite Hlt, Hdone.
      * intros Hd. by rewrite (Hfuel Hd).
    + exists self, [], true, 0. split; [reflexivity|]. split_and!; try done; try lia.
      intros _. cbn [Lab03.MyNode.wake_times forallb]. fold wake. by rewrite Hlt.
Qed.

(** X12. In lab03.py node 0 transmits nothing. A transmitter (any other
    node), started by [__init__] at time 0 with waits that are not negative,
    is resumed at the instants reached from 0 by one double addition of
    [1 + backoff_time] for each pass, for as long as such an instant lies
    before the simulator's horizon of 10 seconds: at each of them it sends
    one PDU, with its id and the data string that ends with it, and its
    [seq_num] ends as the number of PDUs sent. When the horizon ends the
    loop, the next of these instants is not before the horizon. *)
Theorem X12_lab03_transmitter (draws : nat -> float) (i fuel : nat) (p : float * float) :
  (forall k, PrimFloat.ltb (1 + uniform 0 1 (draws k)) 0 = false) ->
  Lab03.MyNode.run fuel draws (Lab03.MyNode.init 0 p) = Some (Lab03.MyNode.init 0 p, [], true)
  /\ (i <> 0 ->
      exists (self' : Lab03.MyNode.t) (trace : list (float * Lab03.Event))
             (done : bool) (m : nat),
        Lab03.MyNode.run fuel draws (Lab03.MyNode.init i p) = Some (self', trace, done)
        /\ m <= fuel
        /\ Lab03.MyNode.id self' = i
        /\ Lab03.MyNode.seq_num self' = m
        /\ length (Lab03.sends trace) = m
        /\ Lab03.sends trace
           = map (fun t => (t, Lab03.mkPDU 20 ("MyData_from_Node_" +:+ pretty i) i))
                 (Lab03.MyNode.wake_times 0 draws 0 m)
        /\ Forall (fun e => PrimFloat.ltb e.1 Lab03.UNTIL = true) (Lab03.sends trace)
        /\ (done = true ->
              forallb (fun t => PrimFloat.ltb t Lab03.UNTIL)
                      (Lab03.MyNode.wake_times 0 draws 0 (S m)) = false)
        /\ (done = false -> m = fuel)).
Proof.
  intros Hdraws. split; [reflexivity|]. intros Hi.
  unfold Lab03.MyNode.run. cbn [Lab03.MyNode.id Lab03.MyNode.init].
  apply Nat.eqb_neq in Hi. rewrite Hi.
  destruct (lab03_run_loop_spec draws Hdraws fuel 0 0 (Lab03.MyNode.init i p))
    as (self' & trace & done & m & Hrun & Hm & Hid & Hseq & Hs & Hall & Hdone & Hfuel).
  cbn [Lab03.MyNode.id Lab03.MyNode.init Lab03.MyNode.seq_num] in *.
  rewrite Hrun. cbn [mbind option_bind].
  eexists self', _, done, m. split; [reflexivity|].
  change (Lab03.sends ((0%float, Lab03.LogPosition i (Lab03.MyNode.pos (Lab03.MyNode.init i p)))
                       :: trace)) with (Lab03.sends trace).
  rewrite Hs. split_and!; try done.
  - rewrite length_map. clear. generalize 0%float 0.
    induction m as [|m IH]; intros t k; [done|]. cbn. by rewrite IH.
  - apply Forall_forall. intros [t q] Hin. cbn [fst].
    apply list_elem_of_fmap in Hin as (t' & [= -> ->] & Hin).
    rewrite forallb_forall in Hall. apply Hall. by apply list_elem_of_In.
Qed.

Lemma X12_lab03_transmitter_witness :
  exists (self' : Lab03.MyNode.t) (trace : list (float * Lab03.Event)) (m : nat),
    Lab03.MyNode.run 12 (fun _ => 0.9999999999999999%float) (Lab03.MyNode.init 3 (7, 9)%float)
    = Some (self', trace, true)
    /\ Lab03.MyNode.seq_num self' = m
    /\ length (Lab03.sends trace) = m.
Proof.
  destruct (X12_lab03_transmitter (fun _ => 0.9999999999999999%float) 3 12 (7, 9)%float)
    as (_ & H).
  - intros k. reflexivity.
  - destruct H as (self' & trace & done & m & H1 & _ & _ & H2 & H3 & _); [discriminate|].
    exists self', trace, m. split; [|auto].
    rewrite H1. assert (Hd : done = true); [|by rewrite Hd].
    vm_compute in H1. by injection H1 as _ _ <-.
Defined.

(** With every backoff at one half the node sends at 1.5, 3, ..., 9; with
    every draw at 0.9999999999999999, the largest there is, each wait
    [1 + backoff_time] is 2.0 and the node sends at 2, 4, 6 and 8 only. *)
Example lab03_run_half :
  (r ← Lab03.MyNode.run 12 (fun _ => 0.5%float) (Lab03.MyNode.init 3 (7, 9)%float);
   Some ((Lab03.sends r.1.2).*1, Lab03.MyNode.seq_num r.1.1, r.2))
  = Some ([1.5; 3; 4.5; 6; 7.5; 9]%float, 6, true)
  /\ (r ← Lab03.MyNode.run 12 (fun _ => 0.9999999999999999%float)
            (Lab03.MyNode.init 3 (7, 9)%float);
      Some ((Lab03.sends r.1.2).*1, Lab03.MyNode.seq_num r.1.1, r.2))
     = Some ([2; 4; 6; 8]%float, 4, true).
Proof. vm_compute. auto. Qed.

(** ** lab01.py: one periodic transmitter *)

Lemma lab01_run_loop_spec (self : Lab01.MyNode.t) :
  forall (fuel : nat) (now : float),
    exists (trace : list (float * Lab01.Event)) (done : bool) (m : nat),
      Lab01.MyNode.run_loop fuel now self = (trace, done)
      /\ m <= fuel
      /\ Lab01.sends trace
         = map (fun t => (t, Lab01.mkPDU 20 "Hello from node 1" (Lab01.MyNode.id self)))
               (A1.chain_times (now + 2)%float 2 m)
      /\ forallb (fun t => PrimFloat.ltb t Lab01.UNTIL)
                 (A1.chain_times (now + 2)%float 2 m) = true
      /\ (done = true -> PrimFloat.ltb (A1.chain_instant (now + 2)%float 2 m) Lab01.UNTIL
                         = false)
      /\ (done = false -> m = fuel).
Proof.
  induction fuel as [|fuel IH]; intros now.
  - exists [], false, 0. cbn. split_and!; try done; lia.
  - cbn [Lab01.MyNode.run_loop]. cbv zeta.
    destruct (PrimFloat.ltb (now + 2) Lab01.UNTIL) eqn:Hlt.
    + destruct (IH (now + 2)%float) as (trace & done & m & Hrun & Hm & Hs & Hall & Hdone & Hf).
      rewrite Hrun. eexists _, done, (S m). split; [reflexivity|]. split_and!.
      * lia.
      * cbn [A1.chain_times map]. rewrite <- Hs. reflexivity.
      * cbn [A1.chain_times forallb]. by rewrite Hlt, Hall.
      * exact Hdone.
      * intros Hd. by rewrite (Hf Hd).
    + exists [], true, 0. split; [reflexivity|]. split_and!; try done; lia.
Qed.

(** X13. lab01.py as written sends nothing: every node but node 1 raises
    when its [run] starts, on [self.sim.passivate()], and the script starts
    node 0 first. Node 1 on its own, after its initial wait [r] (not
    negative), is resumed at [r + 2], [(r + 2) + 2], ..., one double
    addition for each pass, for as long as such an instant lies before the
    horizon of 20 seconds, and sends one PDU with the data
    "Hello from node 1" and source 1 at each of them. *)
Theorem X13_lab01_periodic_sender (r : float) (fuel : nat) (self : Lab01.MyNode.t) :
  (Lab01.MyNode.id self <> 1 -> Lab01.MyNode.run fuel r self = None)
  /\ Lab01.script fuel r = None
  /\ (Lab01.MyNode.id self = 1 ->
      PrimFloat.ltb r 0 = false ->
      PrimFloat.ltb (0 + r) Lab01.UNTIL = true ->
      exists (trace : list (float * Lab01.Event)) (done : bool) (m : nat),
        Lab01.MyNode.run fuel r self = Some (trace, done)
        /\ m <= fuel
        /\ Lab01.sends trace
           = map (fun t => (t, Lab01.mkPDU 20 "Hello from node 1" 1))
                 (A1.chain_times (0 + r + 2)%float 2 m)
        /\ Forall (fun e => PrimFloat.ltb e.1 Lab01.UNTIL = true) (Lab01.sends trace)
        /\ (done = true ->
              PrimFloat.ltb (A1.chain_instant (0 + r + 2)%float 2 m) Lab01.UNTIL = false)
        /\ (done = false -> m = fuel)).
Proof.
  split_and!.
  - intros Hid. unfold Lab01.MyNode.run. apply Nat.eqb_neq in Hid. by rewrite Hid.
  - reflexivity.
  - intros Hid Hr Hlt. unfold Lab01.MyNode.run. rewrite Hid, Hr, Hlt. cbn [Nat.eqb].
    destruct (lab01_run_loop_spec self fuel (0 + r)%float)
      as (trace & done & m & Hrun & Hm & Hs & Hall & Hdone & Hf).
    rewrite Hrun, Hid in *. exists trace, done, m. split_and!; try done.
    rewrite Hs. apply Forall_forall. intros [t q] Hin. cbn [fst].
    apply list_elem_of_fmap in Hin as (t' & [= -> ->] & Hin).
    rewrite forallb_forall in Hall. apply Hall. by apply list_elem_of_In.
Qed.

(** Node 1 on its own with a first wait of a quarter of a second: nine
    PDUs, at 2.25, 4.25, ..., 18.25. *)
Example lab01_run_quarter :
  (r ← Lab01.MyNode.run 12 0.25 (Lab01.MyNode.init 1);
   Some ((Lab01.sends r.1).*1, r.2))
  = Some ([2.25; 4.25; 6.25; 8.25; 10.25; 12.25; 14.25; 16.25; 18.25]%float, true).
Proof. vm_compute. reflexivity. Qed.
